(** * Frame lifecycle and render-method state machine of the ray-tracing viewer

    A shallow embedding of the orchestration code of [Simulator]
    (src/simulator.cpp, src/simulator.hpp), of the settings panel of
    [SimGUI] (src/gui.cpp) and of the push-constant block [RtxState]
    (shaders/host_device.h).

    Member functions become computations in a small monad [M] that threads
    the [Simulator] object, appends to a trace of observable actions (calls
    into the Vulkan device, the renderers and the other collaborators, and
    the writes another thread or a later frame observes) and can stop on
    undefined behaviour (indexing [m_pRender] with [eNone], dividing by a
    zero de-scaling level). *)

From Stdlib Require Import ZArith List String Ascii Bool Lia.
From Stdlib Require Import Floats.SpecFloat.
Import ListNotations.

Local Open Scope Z_scope.

(** ** Machine integers *)

(** [int] is a 32-bit two's complement integer.  It is carried as a [Z];
    arithmetic on it goes through [Int32.wrap]. *)
Module Int32.

Definition min_signed : Z := - 2 ^ 31.
Definition max_signed : Z := 2 ^ 31 - 1.

Definition in_range (z : Z) : Prop := min_signed <= z <= max_signed.

Definition wrap (z : Z) : Z := (z + 2 ^ 31) mod 2 ^ 32 - 2 ^ 31.

End Int32.

(** [uint32_t], with the conversions the render-size computation performs. *)
Module UInt32.

Definition modulus : Z := 2 ^ 32.

Definition in_range (z : Z) : Prop := 0 <= z < modulus.

(** Conversion of an [int] to [unsigned] (usual arithmetic conversions). *)
Definition of_int (z : Z) : Z := z mod modulus.

(** Conversion of a [uint32_t] to [int]. *)
Definition to_int (z : Z) : Z := Int32.wrap z.

End UInt32.

(** ** Single-precision floats *)

(** [float] is IEEE 754 binary32: [spec_float] at precision 24 and maximal
    exponent 128, with the operations of the standard library's executable
    specification. *)
Module Float32.

Definition prec : Z := 24.
Definition emax : Z := 128.

Definition t : Type := spec_float.

Definition of_Z (z : Z) : t := binary_normalize prec emax z 0 false.

Definition mul (x y : t) : t := SFmul prec emax x y.

(** The C++ operator [!=]: true when an operand is a NaN, false on
    zeros of opposite sign. *)
Definition neq (x y : t) : bool := negb (SFeqb x y).

Definition one : t := Eval cbv in of_Z 1.
Definition four : t := Eval cbv in of_Z 4.

End Float32.

Definition float : Type := Float32.t.

(** ** Raw memory comparison *)

(** [memcmp] over two object representations of the same size, given as
    byte lists: 0 when they agree, otherwise the sign of the first
    differing pair of bytes. *)
Fixpoint memcmp (a b : list Z) : Z :=
  match a, b with
  | x :: a', y :: b' =>
      if x <? y then -1 else if y <? x then 1 else memcmp a' b'
  | _, _ => 0
  end.

(** ** Data model *)

(** [nvmath::mat4f], by its object representation: the 64 bytes that
    [memcmp] reads starting at [a00]. *)
Definition mat4f : Type := list Z.

Definition mat4f_wf (m : mat4f) : Prop :=
  List.length m = 64%nat /\ Forall (fun b => 0 <= b < 256) m.

(** [Simulator::RndMethod] (simulator.hpp). *)
Inductive RndMethod : Type :=
| eRtxPipeline
| eRayQuery
| eNone.

Definition RndMethod_to_int (k : RndMethod) : Z :=
  match k with
  | eRtxPipeline => 0
  | eRayQuery => 1
  | eNone => 2
  end.

Definition RndMethod_eqb (a b : RndMethod) : bool :=
  RndMethod_to_int a =? RndMethod_to_int b.

(** [DebugMode] (host_device.h): only [eHeatmap] is tested by the code. *)
Definition eHeatmap : Z := 13.

(** [RtxState] (host_device.h), the push-constant block. *)
Record RtxState : Type := mkRtxState {
  frame : Z;
  maxDepth : Z;
  maxSamples : Z;
  fireflyClampThreshold : float;
  hdrMultiplier : float;
  debugging_mode : Z;
  pbrMode : Z;
  _pad0 : Z;
  size : Z * Z;
  minHeatmap : Z;
  maxHeatmap : Z;
  accumulate : Z
}.

(** [VkRect2D]: a signed offset and an unsigned extent, four 32-bit words
    without padding. *)
Record VkRect2D : Type := mkVkRect2D {
  offset_x : Z;
  offset_y : Z;
  extent_width : Z;
  extent_height : Z
}.

(** [memcmp(&a, &b, sizeof(VkRect2D)) != 0]: the two rectangles differ in
    some word. *)
Definition VkRect2D_differs (a b : VkRect2D) : bool :=
  negb ((offset_x a =? offset_x b) && (offset_y a =? offset_y b)
        && (extent_width a =? extent_width b)
        && (extent_height a =? extent_height b)).

(** What the code reads from the camera manipulator singleton
    [CameraManip]: the view matrix, the field of view and the second
    component of the up vector that [getLookat] returns. *)
Record Camera : Type := mkCamera {
  getMatrix : mat4f;
  getFov : float;
  getLookat_up_y : float
}.

(** Modelled from the spec: the class [HdrSampling] of [m_skydome], whose
    declaration (hdr_sampling.hpp) is not among the files modelled here.
    The environment collaborator offers [loadEnvironment(path)] and
    [getIntegral()]; the orchestration code reads the integral of the
    loaded environment and nothing else. *)
Record HdrSampling : Type := mkHdrSampling {
  getIntegral : float
}.

(** The integer members of [Tonemapper] and [SunAndSky] (host_device.h)
    that the code branches on.  Their float members are written by GUI
    widgets only and read by shaders only. *)
Record Tonemapper : Type := mkTonemapper {
  autoExposure : Z
}.

Record SunAndSky : Type := mkSunAndSky {
  y_is_up : Z;
  physically_scaled_sun : Z;
  in_use : Z
}.

(** The [Simulator] object (simulator.hpp), together with the program
    state its member functions touch outside the object: the [CameraManip]
    singleton, the function-local statics of [updateFrame]
    ([refCamMatrix], [fov]) and of [SimGUI::guiRayTracing] ([bAnyHit]),
    and the detached loader threads that were started and have not run. *)
Record Simulator : Type := mkSimulator {
  m_rtxState : RtxState;
  m_sunAndSky : SunAndSky;
  m_tonemapper : Tonemapper;
  m_skydome : HdrSampling;
  m_supportRayQuery : bool;
  m_rndMethod : RndMethod;
  m_renderRegion : VkRect2D;
  m_maxFrames : Z;
  m_showAxis : bool;
  m_descaling : bool;
  m_descalingLevel : Z;
  m_busy : bool;
  m_busyReasonText : string;
  CameraManip : Camera;
  refCamMatrix : mat4f;
  fov : float;
  bAnyHit : bool;
  threads : list string
}.

(** Field updates. *)
Definition set_frame (v : Z) (r : RtxState) : RtxState :=
  mkRtxState v (maxDepth r) (maxSamples r) (fireflyClampThreshold r)
    (hdrMultiplier r) (debugging_mode r) (pbrMode r) (_pad0 r) (size r)
    (minHeatmap r) (maxHeatmap r) (accumulate r).

Definition set_maxDepth (v : Z) (r : RtxState) : RtxState :=
  mkRtxState (frame r) v (maxSamples r) (fireflyClampThreshold r)
    (hdrMultiplier r) (debugging_mode r) (pbrMode r) (_pad0 r) (size r)
    (minHeatmap r) (maxHeatmap r) (accumulate r).

Definition set_maxSamples (v : Z) (r : RtxState) : RtxState :=
  mkRtxState (frame r) (maxDepth r) v (fireflyClampThreshold r)
    (hdrMultiplier r) (debugging_mode r) (pbrMode r) (_pad0 r) (size r)
    (minHeatmap r) (maxHeatmap r) (accumulate r).

Definition set_fireflyClampThreshold (v : float) (r : RtxState) : RtxState :=
  mkRtxState (frame r) (maxDepth r) (maxSamples r) v
    (hdrMultiplier r) (debugging_mode r) (pbrMode r) (_pad0 r) (size r)
    (minHeatmap r) (maxHeatmap r) (accumulate r).

Definition set_hdrMultiplier (v : float) (r : RtxState) : RtxState :=
  mkRtxState (frame r) (maxDepth r) (maxSamples r) (fireflyClampThreshold r)
    v (debugging_mode r) (pbrMode r) (_pad0 r) (size r)
    (minHeatmap r) (maxHeatmap r) (accumulate r).

Definition set_debugging_mode (v : Z) (r : RtxState) : RtxState :=
  mkRtxState (frame r) (maxDepth r) (maxSamples r) (fireflyClampThreshold r)
    (hdrMultiplier r) v (pbrMode r) (_pad0 r) (size r)
    (minHeatmap r) (maxHeatmap r) (accumulate r).

Definition set_pbrMode (v : Z) (r : RtxState) : RtxState :=
  mkRtxState (frame r) (maxDepth r) (maxSamples r) (fireflyClampThreshold r)
    (hdrMultiplier r) (debugging_mode r) v (_pad0 r) (size r)
    (minHeatmap r) (maxHeatmap r) (accumulate r).

Definition set_size (v : Z * Z) (r : RtxState) : RtxState :=
  mkRtxState (frame r) (maxDepth r) (maxSamples r) (fireflyClampThreshold r)
    (hdrMultiplier r) (debugging_mode r) (pbrMode r) (_pad0 r) v
    (minHeatmap r) (maxHeatmap r) (accumulate r).

Definition set_minHeatmap (v : Z) (r : RtxState) : RtxState :=
  mkRtxState (frame r) (maxDepth r) (maxSamples r) (fireflyClampThreshold r)
    (hdrMultiplier r) (debugging_mode r) (pbrMode r) (_pad0 r) (size r)
    v (maxHeatmap r) (accumulate r).

Definition set_maxHeatmap (v : Z) (r : RtxState) : RtxState :=
  mkRtxState (frame r) (maxDepth r) (maxSamples r) (fireflyClampThreshold r)
    (hdrMultiplier r) (debugging_mode r) (pbrMode r) (_pad0 r) (size r)
    (minHeatmap r) v (accumulate r).

Definition set_accumulate (v : Z) (r : RtxState) : RtxState :=
  mkRtxState (frame r) (maxDepth r) (maxSamples r) (fireflyClampThreshold r)
    (hdrMultiplier r) (debugging_mode r) (pbrMode r) (_pad0 r) (size r)
    (minHeatmap r) (maxHeatmap r) v.

Definition set_m_rtxState (v : RtxState) (s : Simulator) : Simulator :=
  mkSimulator v (m_sunAndSky s) (m_tonemapper s) (m_skydome s)
    (m_supportRayQuery s) (m_rndMethod s) (m_renderRegion s) (m_maxFrames s)
    (m_showAxis s) (m_descaling s) (m_descalingLevel s) (m_busy s)
    (m_busyReasonText s) (CameraManip s) (refCamMatrix s) (fov s)
    (bAnyHit s) (threads s).

Definition set_m_sunAndSky (v : SunAndSky) (s : Simulator) : Simulator :=
  mkSimulator (m_rtxState s) v (m_tonemapper s) (m_skydome s)
    (m_supportRayQuery s) (m_rndMethod s) (m_renderRegion s) (m_maxFrames s)
    (m_showAxis s) (m_descaling s) (m_descalingLevel s) (m_busy s)
    (m_busyReasonText s) (CameraManip s) (refCamMatrix s) (fov s)
    (bAnyHit s) (threads s).

Definition set_m_tonemapper (v : Tonemapper) (s : Simulator) : Simulator :=
  mkSimulator (m_rtxState s) (m_sunAndSky s) v (m_skydome s)
    (m_supportRayQuery s) (m_rndMethod s) (m_renderRegion s) (m_maxFrames s)
    (m_showAxis s) (m_descaling s) (m_descalingLevel s) (m_busy s)
    (m_busyReasonText s) (CameraManip s) (refCamMatrix s) (fov s)
    (bAnyHit s) (threads s).

Definition set_m_skydome (v : HdrSampling) (s : Simulator) : Simulator :=
  mkSimulator (m_rtxState s) (m_sunAndSky s) (m_tonemapper s) v
    (m_supportRayQuery s) (m_rndMethod s) (m_renderRegion s) (m_maxFrames s)
    (m_showAxis s) (m_descaling s) (m_descalingLevel s) (m_busy s)
    (m_busyReasonText s) (CameraManip s) (refCamMatrix s) (fov s)
    (bAnyHit s) (threads s).

Definition set_m_rndMethod (v : RndMethod) (s : Simulator) : Simulator :=
  mkSimulator (m_rtxState s) (m_sunAndSky s) (m_tonemapper s) (m_skydome s)
    (m_supportRayQuery s) v (m_renderRegion s) (m_maxFrames s)
    (m_showAxis s) (m_descaling s) (m_descalingLevel s) (m_busy s)
    (m_busyReasonText s) (CameraManip s) (refCamMatrix s) (fov s)
    (bAnyHit s) (threads s).

Definition set_m_renderRegion (v : VkRect2D) (s : Simulator) : Simulator :=
  mkSimulator (m_rtxState s) (m_sunAndSky s) (m_tonemapper s) (m_skydome s)
    (m_supportRayQuery s) (m_rndMethod s) v (m_maxFrames s) (m_showAxis s)
    (m_descaling s) (m_descalingLevel s) (m_busy s) (m_busyReasonText s)
    (CameraManip s) (refCamMatrix s) (fov s) (bAnyHit s) (threads s).

Definition set_m_maxFrames (v : Z) (s : Simulator) : Simulator :=
  mkSimulator (m_rtxState s) (m_sunAndSky s) (m_tonemapper s) (m_skydome s)
    (m_supportRayQuery s) (m_rndMethod s) (m_renderRegion s) v
    (m_showAxis s) (m_descaling s) (m_descalingLevel s) (m_busy s)
    (m_busyReasonText s) (CameraManip s) (refCamMatrix s) (fov s)
    (bAnyHit s) (threads s).

Definition set_m_descaling (v : bool) (s : Simulator) : Simulator :=
  mkSimulator (m_rtxState s) (m_sunAndSky s) (m_tonemapper s) (m_skydome s)
    (m_supportRayQuery s) (m_rndMethod s) (m_renderRegion s) (m_maxFrames s)
    (m_showAxis s) v (m_descalingLevel s) (m_busy s) (m_busyReasonText s)
    (CameraManip s) (refCamMatrix s) (fov s) (bAnyHit s) (threads s).

Definition set_m_descalingLevel (v : Z) (s : Simulator) : Simulator :=
  mkSimulator (m_rtxState s) (m_sunAndSky s) (m_tonemapper s) (m_skydome s)
    (m_supportRayQuery s) (m_rndMethod s) (m_renderRegion s) (m_maxFrames s)
    (m_showAxis s) (m_descaling s) v (m_busy s) (m_busyReasonText s)
    (CameraManip s) (refCamMatrix s) (fov s) (bAnyHit s) (threads s).

Definition set_m_busy (v : bool) (s : Simulator) : Simulator :=
  mkSimulator (m_rtxState s) (m_sunAndSky s) (m_tonemapper s) (m_skydome s)
    (m_supportRayQuery s) (m_rndMethod s) (m_renderRegion s) (m_maxFrames s)
    (m_showAxis s) (m_descaling s) (m_descalingLevel s) v
    (m_busyReasonText s) (CameraManip s) (refCamMatrix s) (fov s)
    (bAnyHit s) (threads s).

Definition set_m_busyReasonText (v : string) (s : Simulator) : Simulator :=
  mkSimulator (m_rtxState s) (m_sunAndSky s) (m_tonemapper s) (m_skydome s)
    (m_supportRayQuery s) (m_rndMethod s) (m_renderRegion s) (m_maxFrames s)
    (m_showAxis s) (m_descaling s) (m_descalingLevel s) (m_busy s) v
    (CameraManip s) (refCamMatrix s) (fov s) (bAnyHit s) (threads s).

Definition set_CameraManip (v : Camera) (s : Simulator) : Simulator :=
  mkSimulator (m_rtxState s) (m_sunAndSky s) (m_tonemapper s) (m_skydome s)
    (m_supportRayQuery s) (m_rndMethod s) (m_renderRegion s) (m_maxFrames s)
    (m_showAxis s) (m_descaling s) (m_descalingLevel s) (m_busy s)
    (m_busyReasonText s) v (refCamMatrix s) (fov s) (bAnyHit s) (threads s).

Definition set_refCamMatrix (v : mat4f) (s : Simulator) : Simulator :=
  mkSimulator (m_rtxState s) (m_sunAndSky s) (m_tonemapper s) (m_skydome s)
    (m_supportRayQuery s) (m_rndMethod s) (m_renderRegion s) (m_maxFrames s)
    (m_showAxis s) (m_descaling s) (m_descalingLevel s) (m_busy s)
    (m_busyReasonText s) (CameraManip s) v (fov s) (bAnyHit s) (threads s).

Definition set_fov (v : float) (s : Simulator) : Simulator :=
  mkSimulator (m_rtxState s) (m_sunAndSky s) (m_tonemapper s) (m_skydome s)
    (m_supportRayQuery s) (m_rndMethod s) (m_renderRegion s) (m_maxFrames s)
    (m_showAxis s) (m_descaling s) (m_descalingLevel s) (m_busy s)
    (m_busyReasonText s) (CameraManip s) (refCamMatrix s) v (bAnyHit s)
    (threads s).

Definition set_bAnyHit (v : bool) (s : Simulator) : Simulator :=
  mkSimulator (m_rtxState s) (m_sunAndSky s) (m_tonemapper s) (m_skydome s)
    (m_supportRayQuery s) (m_rndMethod s) (m_renderRegion s) (m_maxFrames s)
    (m_showAxis s) (m_descaling s) (m_descalingLevel s) (m_busy s)
    (m_busyReasonText s) (CameraManip s) (refCamMatrix s) (fov s) v
    (threads s).

Definition set_threads (v : list string) (s : Simulator) : Simulator :=
  mkSimulator (m_rtxState s) (m_sunAndSky s) (m_tonemapper s) (m_skydome s)
    (m_supportRayQuery s) (m_rndMethod s) (m_renderRegion s) (m_maxFrames s)
    (m_showAxis s) (m_descaling s) (m_descalingLevel s) (m_busy s)
    (m_busyReasonText s) (CameraManip s) (refCamMatrix s) (fov s)
    (bAnyHit s) v.

Definition set_m_showAxis (v : bool) (s : Simulator) : Simulator :=
  mkSimulator (m_rtxState s) (m_sunAndSky s) (m_tonemapper s) (m_skydome s)
    (m_supportRayQuery s) (m_rndMethod s) (m_renderRegion s) (m_maxFrames s)
    v (m_descaling s) (m_descalingLevel s) (m_busy s) (m_busyReasonText s)
    (CameraManip s) (refCamMatrix s) (fov s) (bAnyHit s) (threads s).

Definition set_in_use (v : Z) (e : SunAndSky) : SunAndSky :=
  mkSunAndSky (y_is_up e) (physically_scaled_sun e) v.

Definition set_y_is_up (v : Z) (e : SunAndSky) : SunAndSky :=
  mkSunAndSky v (physically_scaled_sun e) (in_use e).

(** ** Observable actions *)

(** One constructor per call that leaves the modelled code (device,
    renderers, scene, acceleration structure, environment, GUI back end)
    and per write or call whose order or number matters to a later frame
    or another thread.  The classes behind these calls are opaque here: a
    call is recorded with the arguments the orchestration code computes. *)
Inductive Event : Type :=
| vkDeviceWaitIdle
| Scene_load (filename : string)
| Scene_updateCamera
| AccelStructure_create
| RayPicker_setTlas
| Renderer_destroy (slot : RndMethod)
| Renderer_create (slot : RndMethod)
| Renderer_setPushContants (slot : RndMethod) (state : RtxState)
| Renderer_run (slot : RndMethod) (render_size : Z * Z)
| RtxPipeline_useAnyHit (enable : bool)
| HdrSampling_loadEnvironment (filename : string)
| vkUpdateDescriptorSets
| vkCmdUpdateBuffer
| RenderOutput_update
| RenderOutput_genMipmap
| Profiler_timeRecurring (name : string)
| SimGUI_showBusyWindow
| thread_detach (sfile : string)
| call_resetFrame
| write_m_busy (b : bool)
| write_m_rndMethod (k : RndMethod).

(** ** The monad of member functions *)

(** A run ends with a value, or with [None] when it reached undefined
    behaviour; in both cases it leaves an object and the trace up to that
    point. *)
Record Run (A : Type) : Type := mkRun {
  value : option A;
  final : Simulator;
  trace : list Event
}.

Arguments mkRun {A} _ _ _.
Arguments value {A} _.
Arguments final {A} _.
Arguments trace {A} _.

Definition M (A : Type) : Type := Simulator -> Run A.

Definition ret {A : Type} (a : A) : M A :=
  fun s => mkRun (Some a) s [].

Definition bind {A B : Type} (m : M A) (k : A -> M B) : M B :=
  fun s =>
    let r := m s in
    match value r with
    | Some a =>
        let r' := k a (final r) in
        mkRun (value r') (final r') (trace r ++ trace r')
    | None => mkRun None (final r) (trace r)
    end.

Definition get : M Simulator :=
  fun s => mkRun (Some s) s [].

Definition modify (f : Simulator -> Simulator) : M unit :=
  fun s => mkRun (Some tt) (f s) [].

Definition emit (e : Event) : M unit :=
  fun s => mkRun (Some tt) s [e].

Definition undefined_behaviour {A : Type} : M A :=
  fun s => mkRun None s [].

Declare Scope sim_scope.
Delimit Scope sim_scope with sim.

Notation "x <- m ;; k" := (bind m (fun x => k))
  (at level 61, m at next level, right associativity) : sim_scope.
Notation "m ;; k" := (bind m (fun _ => k))
  (at level 61, right associativity) : sim_scope.

Local Open Scope sim_scope.

(** The object a computation leaves behind. *)
Definition exec {A : Type} (m : M A) (s : Simulator) : Simulator :=
  final (m s).

(** How often an action occurs in a trace. *)
Definition Event_is_reset (e : Event) : bool :=
  match e with call_resetFrame => true | _ => false end.

Definition Event_is_run (e : Event) : bool :=
  match e with Renderer_run _ _ => true | _ => false end.

Definition count (p : Event -> bool) (t : list Event) : nat :=
  List.length (filter p t).

(** ** Frame counter *)

(** [Simulator::resetFrame]. *)
Definition resetFrame : M unit :=
  emit call_resetFrame ;;
  modify (fun s => set_m_rtxState (set_frame (-1) (m_rtxState s)) s).

(** The condition of [updateFrame] under which the accumulation restarts:
    the view matrix differs bytewise from the remembered one, or the field
    of view compares unequal to the remembered one. *)
Definition camera_changed (s : Simulator) : bool :=
  negb (memcmp (refCamMatrix s) (getMatrix (CameraManip s)) =? 0)
  || Float32.neq (getFov (CameraManip s)) (fov s).

(** [Simulator::updateFrame]. *)
Definition updateFrame : M unit :=
  s <- get ;;
  let m := getMatrix (CameraManip s) in
  let f := getFov (CameraManip s) in
  (if negb (memcmp (refCamMatrix s) m =? 0) || Float32.neq f (fov s)
   then resetFrame ;;
        modify (set_refCamMatrix m) ;;
        modify (set_fov f)
   else ret tt) ;;
  s <- get ;;
  if frame (m_rtxState s) <? m_maxFrames s
  then modify (fun s =>
         set_m_rtxState
           (set_frame (Int32.wrap (frame (m_rtxState s) + 1)) (m_rtxState s)) s)
  else ret tt.

(** ** Renderer slots *)

(** [m_pRender] is a [std::array<Renderer*, eNone>]: it has the two slots
    [eRtxPipeline] and [eRayQuery].  Indexing it with [eNone] reads past
    its end. *)
Definition m_pRender (k : RndMethod) : M RndMethod :=
  if RndMethod_to_int k <? RndMethod_to_int eNone
  then ret k
  else undefined_behaviour.

(** [m_pRender[m_rndMethod]->create(m_size, {...}, &m_scene)]. *)
Definition create_active_renderer : M unit :=
  s <- get ;;
  r <- m_pRender (m_rndMethod s) ;;
  emit (Renderer_create r).

(** [Simulator::createRender]. *)
Definition createRender (method : RndMethod) : M unit :=
  s <- get ;;
  if RndMethod_eqb method (m_rndMethod s) then ret tt
  else
    (if negb (RndMethod_eqb (m_rndMethod s) eNone)
     then emit vkDeviceWaitIdle ;;
          r <- m_pRender (m_rndMethod s) ;;
          emit (Renderer_destroy r)
     else ret tt) ;;
    emit (write_m_rndMethod method) ;;
    modify (set_m_rndMethod method) ;;
    create_active_renderer.

(** ** Per-frame work *)

(** [Simulator::setRenderRegion]. *)
Definition setRenderRegion (size : VkRect2D) : M unit :=
  s <- get ;;
  (if VkRect2D_differs (m_renderRegion s) size then resetFrame else ret tt) ;;
  modify (set_m_renderRegion size).

(** [Simulator::onResize]. *)
Definition onResize : M unit :=
  emit RenderOutput_update ;;
  resetFrame.

(** [Simulator::updateUniformBuffer]. *)
Definition updateUniformBuffer : M unit :=
  s <- get ;;
  if m_busy s then ret tt
  else
    emit Scene_updateCamera ;;
    emit vkCmdUpdateBuffer.

(** The size handed to the renderer: the extent of the render region,
    divided by the de-scaling level while the camera is dragged.  The
    division is unsigned, the [int] level being converted first. *)
Definition render_size_of (s : Simulator) : M (Z * Z) :=
  let w := extent_width (m_renderRegion s) in
  let h := extent_height (m_renderRegion s) in
  if m_descaling s
  then
    let d := UInt32.of_int (m_descalingLevel s) in
    if d =? 0 then undefined_behaviour else ret (w / d, h / d)
  else ret (w, h).

(** [Simulator::renderScene].  The refresh of the GPU monitor under
    [NVP_SUPPORTS_NVML] reads telemetry only. *)
Definition renderScene : M unit :=
  s <- get ;;
  if m_busy s then emit SimGUI_showBusyWindow
  else
    emit (Profiler_timeRecurring "Render") ;;
    if m_maxFrames s <=? frame (m_rtxState s) then ret tt
    else
      render_size <- render_size_of s ;;
      modify (fun s =>
        set_m_rtxState
          (set_size (UInt32.to_int (fst render_size),
                     UInt32.to_int (snd render_size)) (m_rtxState s)) s) ;;
      s <- get ;;
      r <- m_pRender (m_rndMethod s) ;;
      emit (Renderer_setPushContants r (m_rtxState s)) ;;
      r <- m_pRender (m_rndMethod s) ;;
      emit (Renderer_run r render_size) ;;
      if negb (autoExposure (m_tonemapper s) =? 0)
      then emit (Profiler_timeRecurring "Mipmap") ;;
           emit RenderOutput_genMipmap
      else ret tt.

(** ** Asset loading *)

(** [std::filesystem::path(p).filename()] in the generic format: what
    follows the last directory separator. *)
Fixpoint has_separator (p : string) : bool :=
  match p with
  | EmptyString => false
  | String c p' => Ascii.eqb c "/" || has_separator p'
  end.

Fixpoint path_filename (p : string) : string :=
  match p with
  | EmptyString => EmptyString
  | String c p' =>
      if Ascii.eqb c "/" || has_separator p' then path_filename p' else p
  end.

(** The suffix that starts at the rightmost period, if there is one. *)
Fixpoint from_last_period (f : string) : option string :=
  match f with
  | EmptyString => None
  | String c f' =>
      match from_last_period f' with
      | Some e => Some e
      | None => if Ascii.eqb c "." then Some f else None
      end
  end.

(** [std::filesystem::path(p).extension().string()]: the file name from its
    rightmost period on, where a period that opens the file name does not
    count and the names [.] and [..] have no extension. *)
Definition path_extension (p : string) : string :=
  match path_filename p with
  | EmptyString => EmptyString
  | String c rest =>
      if Ascii.eqb c "." && String.eqb rest "." then EmptyString
      else
        match from_last_period rest with
        | Some e => e
        | None => EmptyString
        end
  end.

(** [Simulator::loadScene]. *)
Definition loadScene (filename : string) : M unit :=
  emit (Scene_load filename) ;;
  emit AccelStructure_create ;;
  emit RayPicker_setTlas ;;
  resetFrame.

(** [Simulator::updateHdrDescriptors]. *)
Definition updateHdrDescriptors : M unit :=
  emit vkUpdateDescriptorSets.

(** [Simulator::loadAssets], the part that runs on the calling thread: it
    raises [m_busy], drains the device and detaches the loader thread. *)
Definition loadAssets (filename : string) : M unit :=
  let sfile := filename in
  emit (write_m_busy true) ;;
  modify (set_m_busy true) ;;
  emit vkDeviceWaitIdle ;;
  emit (thread_detach sfile) ;;
  modify (fun s => set_threads (threads s ++ [sfile]) s).

(** [Simulator::onFileDrop]. *)
Definition onFileDrop (filename : string) : M unit :=
  s <- get ;;
  if m_busy s then ret tt
  else loadAssets filename.

Section Loader.

(** [HdrSampling::loadEnvironment] is defined outside the orchestration
    code; whatever it does to the environment, on success or on failure,
    is a parameter here. *)
Variable loadEnvironment : string -> HdrSampling -> HdrSampling.

(** [Simulator::loadEnvironmentHdr]. *)
Definition loadEnvironmentHdr (hdrFilename : string) : M unit :=
  emit (HdrSampling_loadEnvironment hdrFilename) ;;
  modify (fun s => set_m_skydome (loadEnvironment hdrFilename (m_skydome s)) s) ;;
  modify (fun s =>
    set_m_rtxState
      (set_fireflyClampThreshold
         (Float32.mul (getIntegral (m_skydome s)) Float32.four)
         (m_rtxState s)) s).

(** The body of the thread that [loadAssets] detaches. *)
Definition loadAssets_thread (sfile : string) : M unit :=
  let extension := path_extension sfile in
  (if String.eqb extension ".gltf" || String.eqb extension ".glb"
   then
     modify (set_m_busyReasonText "Loading scene ") ;;
     loadScene sfile ;;
     emit (Renderer_destroy eRtxPipeline) ;;
     emit (Renderer_destroy eRayQuery) ;;
     create_active_renderer
   else ret tt) ;;
  (if String.eqb extension ".hdr"
   then
     modify (set_m_busyReasonText "Loading HDR ") ;;
     loadEnvironmentHdr sfile ;;
     updateHdrDescriptors
   else ret tt) ;;
  resetFrame ;;
  emit (write_m_busy false) ;;
  modify (set_m_busy false).

(** The oldest detached loader thread runs to its end. *)
Definition run_thread : M unit :=
  s <- get ;;
  match threads s with
  | [] => ret tt
  | sfile :: rest =>
      modify (set_threads rest) ;;
      loadAssets_thread sfile
  end.

(** A load session without interleaving: the request, then its thread. *)
Definition load_session (filename : string) : M unit :=
  loadAssets filename ;;
  run_thread.

End Loader.

(** ** The settings panel *)

Module SimGUI.

(** *** One pass of user interaction

    The widgets belong to the GUI back end.  Their contract: a widget
    returns [true] in the pass in which the user edits it, after it
    wrote the new value through the pointer it was given; a collapsed
    header or tree node does not run its body.  A pass is described by
    what the user did to each widget: [Some v] for an edit to [v],
    [None] for a widget left alone, [None] for a collapsed header or
    group.  For widgets whose target is a float parameter read by
    shaders only, the pass records the returned flag. *)

Record CameraPanel : Type := mkCameraPanel {
  w_CameraWidget : option Camera;
  w_Aperture : bool
}.

Record DebuggingGroup : Type := mkDebuggingGroup {
  w_DebugMode : option Z;
  w_MinHeatMap : option Z;
  w_MaxHeatMap : option Z
}.

(** The two entries of the "Rendering Pipeline" selection, "Rtx" and
    "Compute". *)
Inductive PipelineChoice : Type :=
| pick_Rtx
| pick_Compute.

Definition PipelineChoice_method (c : PipelineChoice) : RndMethod :=
  match c with
  | pick_Rtx => eRtxPipeline
  | pick_Compute => eRayQuery
  end.

Record RayTracingPanel : Type := mkRayTracingPanel {
  w_MaxRayDepth : option Z;
  w_SamplesPerFrame : option Z;
  w_MaxIteration : option Z;
  w_DeScaling : option Z;
  w_Accumulate : option Z;
  w_PbrMode : option Z;
  w_EnableAnyHit : option bool;
  g_Debugging : option DebuggingGroup;
  w_RenderingPipeline : option PipelineChoice
}.

Record AutoSettingsGroup : Type := mkAutoSettingsGroup {
  w_Local : option bool;
  w_BurningWhite : bool;
  w_Key : bool
}.

Record TonemapperPanel : Type := mkTonemapperPanel {
  w_AutoExposure : option bool;
  w_Exposure : bool;
  w_Brightness : bool;
  w_Contrast : bool;
  w_Saturation : bool;
  w_Vignette : bool;
  g_AutoSettings : option AutoSettingsGroup
}.

Record SunGroup : Type := mkSunGroup {
  w_DirectionGizmo : bool;
  w_DirectionInput : bool;
  w_DiskScale : bool;
  w_GlowIntensity : bool;
  w_DiskIntensity : bool;
  w_NightColor : bool
}.

Record GroundGroup : Type := mkGroundGroup {
  w_HorizonHeight : bool;
  w_HorizonBlur : bool;
  w_GroundColor : bool;
  w_Haze : bool
}.

Record OtherGroup : Type := mkOtherGroup {
  w_Multiplier : bool;
  w_SkySaturation : bool;
  w_RedBlueShift : bool;
  w_RGBConversion : bool;
  w_YIsUp : option bool
}.

Record EnvironmentPanel : Type := mkEnvironmentPanel {
  w_UseSunSky : option bool;
  w_EnvExposure : option float;
  g_Sun : option SunGroup;
  g_Ground : option GroundGroup;
  g_Other : option OtherGroup
}.

Record Pass : Type := mkPass {
  h_Camera : option CameraPanel;
  h_RayTracing : option RayTracingPanel;
  h_Tonemapper : option TonemapperPanel;
  h_Environment : option EnvironmentPanel;
  h_Stats : bool;
  viewport : VkRect2D
}.

(** *** Widgets *)

(** A widget bound to a member of the simulator. *)
Definition edit {A : Type} (e : option A)
    (write : A -> Simulator -> Simulator) : M bool :=
  match e with
  | Some v => modify (write v) ;; ret true
  | None => ret false
  end.

(** [GuiH::Group]: the body runs when the tree node is open. *)
Definition Group {G : Type} (g : option G) (body : G -> M bool) : M bool :=
  match g with
  | Some w => body w
  | None => ret false
  end.

(** A group whose body updates the caller's [changed] by reference and
    whose own result is dropped. *)
Definition Group_by_ref {G : Type} (changed : bool) (g : option G)
    (body : bool -> G -> M bool) : M bool :=
  match g with
  | Some w => body changed w
  | None => ret changed
  end.

(** A [bool] stored through a [bool*] that points at an [int]: the byte
    at the lowest address is replaced, which on a little-endian machine
    is the low byte. *)
Definition store_bool (b : bool) (i : Z) : Z :=
  i - i mod 256 + (if b then 1 else 0).

(** [std::bitset<8>]: construction from an [int], [test], [set] and
    [to_ulong]. *)
Definition bitset8 (i : Z) : Z := i mod 256.

Definition bitset_test (b : Z) (pos : Z) : bool := Z.testbit b pos.

Definition bitset_set (b : Z) (pos : Z) (v : bool) : Z :=
  if v then Z.lor b (Z.shiftl 1 pos) else Z.ldiff b (Z.shiftl 1 pos).

Definition on_rtxState (f : RtxState -> RtxState) (s : Simulator) : Simulator :=
  set_m_rtxState (f (m_rtxState s)) s.

(** *** Panels *)

(** [SimGUI::guiCamera]. *)
Definition guiCamera (w : CameraPanel) : M bool :=
  let changed := false in
  c <- edit (w_CameraWidget w) set_CameraManip ;;
  let changed := changed || c in
  let changed := changed || w_Aperture w in
  ret changed.

(** The "Debugging" group of [SimGUI::guiRayTracing]; [changed] is the
    variable of the enclosing function, captured by reference. *)
Definition guiRayTracing_Debugging (changed : bool) (w : DebuggingGroup)
  : M bool :=
  c <- edit (w_DebugMode w) (fun v => on_rtxState (set_debugging_mode v)) ;;
  let changed := changed || c in
  s <- get ;;
  if debugging_mode (m_rtxState s) =? eHeatmap
  then
    c <- edit (w_MinHeatMap w) (fun v => on_rtxState (set_minHeatmap v)) ;;
    let changed := changed || c in
    c <- edit (w_MaxHeatMap w) (fun v => on_rtxState (set_maxHeatmap v)) ;;
    let changed := changed || c in
    ret changed
  else ret changed.

(** The "Enable AnyHit" checkbox of [SimGUI::guiRayTracing], shown while
    the pipeline renderer is active. *)
Definition guiRayTracing_AnyHit (changed : bool) (e : option bool) : M bool :=
  s <- get ;;
  if RndMethod_eqb (m_rndMethod s) eRtxPipeline
  then
    c <- edit e set_bAnyHit ;;
    if c
    then
      rtx <- m_pRender (m_rndMethod s) ;;
      emit vkDeviceWaitIdle ;;
      s <- get ;;
      emit (RtxPipeline_useAnyHit (bAnyHit s)) ;;
      ret true
    else ret changed
  else ret changed.

(** The "Rendering Pipeline" selection of [SimGUI::guiRayTracing], shown
    when ray queries are supported. *)
Definition guiRayTracing_RenderingPipeline (changed : bool)
    (e : option PipelineChoice) : M bool :=
  s <- get ;;
  if m_supportRayQuery s
  then
    match e with
    | Some choice =>
        let method := PipelineChoice_method choice in
        createRender method ;;
        ret true
    | None => ret changed
    end
  else ret changed.

(** [SimGUI::guiRayTracing]. *)
Definition guiRayTracing (w : RayTracingPanel) : M bool :=
  let changed := false in
  c <- edit (w_MaxRayDepth w) (fun v => on_rtxState (set_maxDepth v)) ;;
  let changed := changed || c in
  c <- edit (w_SamplesPerFrame w) (fun v => on_rtxState (set_maxSamples v)) ;;
  let changed := changed || c in
  c <- edit (w_MaxIteration w) set_m_maxFrames ;;
  let changed := changed || c in
  c <- edit (w_DeScaling w) set_m_descalingLevel ;;
  let changed := changed || c in
  c <- edit (w_Accumulate w) (fun v => on_rtxState (set_accumulate v)) ;;
  let changed := changed || c in
  c <- edit (w_PbrMode w) (fun v => on_rtxState (set_pbrMode v)) ;;
  let changed := changed || c in
  changed <- guiRayTracing_AnyHit changed (w_EnableAnyHit w) ;;
  changed <- Group_by_ref changed (g_Debugging w) guiRayTracing_Debugging ;;
  guiRayTracing_RenderingPipeline changed (w_RenderingPipeline w).

(** The body of [SimGUI::guiTonemapper] up to its [return]: it leaves
    the value of the local variable [changed]. *)
Definition guiTonemapper_body (w : TonemapperPanel) : M bool :=
  s <- get ;;
  let changed := false in
  let b := bitset8 (autoExposure (m_tonemapper s)) in
  let autoExposure := bitset_test b 0 in
  let c := match w_AutoExposure w with Some _ => true | None => false end in
  let autoExposure :=
    match w_AutoExposure w with Some v => v | None => autoExposure end in
  let changed := changed || c in
  let changed := changed || w_Exposure w in
  let changed := changed || w_Brightness w in
  let changed := changed || w_Contrast w in
  let changed := changed || w_Saturation w in
  let changed := changed || w_Vignette w in
  let '(changed, b) :=
    if autoExposure
    then
      let localExposure := bitset_test b 1 in
      match g_AutoSettings w with
      | Some g =>
          let c := match w_Local g with Some _ => true | None => false end in
          let localExposure :=
            match w_Local g with Some v => v | None => localExposure end in
          let changed := changed || c in
          let changed := changed || w_BurningWhite g in
          let changed := changed || w_Key g in
          (changed, bitset_set b 1 localExposure)
      | None => (changed, b)
      end
    else (changed, b) in
  let b := bitset_set b 0 autoExposure in
  modify (set_m_tonemapper (mkTonemapper b)) ;;
  ret changed.

(** [SimGUI::guiTonemapper]: [return false;  // no need to restart the
    renderer]. *)
Definition guiTonemapper (w : TonemapperPanel) : M bool :=
  _ <- guiTonemapper_body w ;;
  ret false.

(** [sunAndSky.y_is_up = (up.y == 1)]. *)
Definition adjust_y_is_up : M unit :=
  modify (fun s =>
    let up_y := getLookat_up_y (CameraManip s) in
    set_m_sunAndSky
      (set_y_is_up (if SFeqb up_y Float32.one then 1 else 0) (m_sunAndSky s))
      s).

Definition write_in_use (v : bool) (s : Simulator) : Simulator :=
  set_m_sunAndSky
    (set_in_use (store_bool v (in_use (m_sunAndSky s))) (m_sunAndSky s)) s.

Definition write_y_is_up (v : bool) (s : Simulator) : Simulator :=
  set_m_sunAndSky
    (set_y_is_up (store_bool v (y_is_up (m_sunAndSky s))) (m_sunAndSky s)) s.

(** [SimGUI::guiEnvironment]. *)
Definition guiEnvironment (w : EnvironmentPanel) : M bool :=
  let changed := false in
  c <- edit (w_UseSunSky w) write_in_use ;;
  let changed := changed || c in
  c <- edit (w_EnvExposure w) (fun v => on_rtxState (set_hdrMultiplier v)) ;;
  let changed := changed || c in
  adjust_y_is_up ;;
  s <- get ;;
  if negb (in_use (m_sunAndSky s) =? 0)
  then
    changed <-
      (match g_Sun w with
       | Some g =>
           let changed := changed || w_DirectionGizmo g in
           let changed := changed || w_DirectionInput g in
           let changed := changed || w_DiskScale g in
           let changed := changed || w_GlowIntensity g in
           let changed := changed || w_DiskIntensity g in
           let changed := changed || w_NightColor g in
           ret changed
       | None => ret changed
       end) ;;
    changed <-
      (match g_Ground w with
       | Some g =>
           let changed := changed || w_HorizonHeight g in
           let changed := changed || w_HorizonBlur g in
           let changed := changed || w_GroundColor g in
           let changed := changed || w_Haze g in
           ret changed
       | None => ret changed
       end) ;;
    match g_Other w with
    | Some g =>
        let changed := changed || w_Multiplier g in
        let changed := changed || w_SkySaturation g in
        let changed := changed || w_RedBlueShift g in
        let changed := changed || w_RGBConversion g in
        adjust_y_is_up ;;
        c <- edit (w_YIsUp g) write_y_is_up ;;
        let changed := changed || c in
        ret changed
    | None => ret changed
    end
  else ret changed.

(** [guiStatistics], [guiProfiler] and [guiGpuMeasures] display values;
    each ends in [return false]. *)
Definition guiStatistics : M bool := ret false.
Definition guiProfiler : M bool := ret false.
Definition guiGpuMeasures : M bool := ret false.

(** The "Settings" window of [SimGUI::render] up to the test of
    [changed]: the collapsing headers, in order. *)
Definition render_panels (p : Pass) : M bool :=
  let changed := false in
  c <- Group (h_Camera p) guiCamera ;;
  let changed := changed || c in
  c <- Group (h_RayTracing p) guiRayTracing ;;
  let changed := changed || c in
  c <- Group (h_Tonemapper p) guiTonemapper ;;
  let changed := changed || c in
  c <- Group (h_Environment p) guiEnvironment ;;
  let changed := changed || c in
  (if h_Stats p
   then guiStatistics ;; guiProfiler ;; guiGpuMeasures ;; ret tt
   else ret tt) ;;
  ret changed.

(** [SimGUI::render]: the panels, the reset when [changed] is set, and
    the render region taken from the "Viewport" window. *)
Definition render (p : Pass) : M unit :=
  changed <- render_panels p ;;
  (if changed : bool then resetFrame else ret tt) ;;
  setRenderRegion (viewport p).

(** *** The menu bar *)

(** What the user did to the main menu in a pass.  An "Open" item holds
    the string that [openFilename] returned when the item was picked
    (the empty string without a file dialog, or when it was closed). *)
Record Menu : Type := mkMenu {
  i_OpenGLTFScene : option string;
  i_OpenHDREnvironment : option string;
  i_Axis : bool
}.

(** [SimGUI::menuBar]; its "Quit" and "Settings" items act on the window. *)
Definition menuBar (m : Menu) : M unit :=
  (match i_OpenGLTFScene m with
   | Some filename => loadAssets filename
   | None => ret tt
   end) ;;
  (match i_OpenHDREnvironment m with
   | Some filename => loadAssets filename
   | None => ret tt
   end) ;;
  if i_Axis m
  then modify (fun s => set_m_showAxis (negb (m_showAxis s)) s)
  else ret tt.

End SimGUI.


(** ** Runs *)

(** A computation that ended with a value, an object and a trace. *)
Definition runs {A : Type} (m : M A) (s : Simulator) (a : A)
    (s' : Simulator) (t : list Event) : Prop :=
  m s = mkRun (Some a) s' t.

(** A run whose trace is preceded by the actions [t]. *)
Definition after {A : Type} (t : list Event) (r : Run A) : Run A :=
  mkRun (value r) (final r) (t ++ trace r).

(** The trace of a reset that happens under a condition. *)
Definition reset_if (c : bool) : list Event :=
  if c then [call_resetFrame] else [].

(** No renderer is destroyed in the trace before the device was drained. *)
Fixpoint drained_before_destroy (t : list Event) : bool :=
  match t with
  | [] => true
  | vkDeviceWaitIdle :: _ => true
  | Renderer_destroy _ :: _ => false
  | _ :: t' => drained_before_destroy t'
  end.

(** ** Orchestration steps *)

Definition frame_of (s : Simulator) : Z := frame (m_rtxState s).

(** The object with its frame counter set to [v] and nothing else
    changed. *)
Definition with_frame (v : Z) (s : Simulator) : Simulator :=
  set_m_rtxState (set_frame v (m_rtxState s)) s.

(** The object [updateFrame] leaves after a reset-triggering event, before
    its final test: counter reset, camera remembered. *)
Definition camera_remembered (s : Simulator) : Simulator :=
  set_fov (getFov (CameraManip s))
    (set_refCamMatrix (getMatrix (CameraManip s)) (with_frame (-1) s)).

(** The object when the loader thread ends on a file that is neither a
    scene nor an environment: the counter reset, the flag lowered. *)
Definition load_ignored (s : Simulator) : Simulator :=
  set_m_busy false (with_frame (-1) s).

(** One step of the orchestrator as far as the frame counter goes: input
    handling leaves a camera, then [updateFrame] runs. *)
Definition step (cam : Camera) (s : Simulator) : Simulator :=
  exec updateFrame (set_CameraManip cam s).

Fixpoint steps (cams : list Camera) (s : Simulator) : Simulator :=
  match cams with
  | [] => s
  | cam :: cams' => steps cams' (step cam s)
  end.

(** No step of the sequence sees a reset-triggering event. *)
Fixpoint no_reset_event (cams : list Camera) (s : Simulator) : Prop :=
  match cams with
  | [] => True
  | cam :: cams' =>
      camera_changed (set_CameraManip cam s) = false
      /\ no_reset_event cams' (step cam s)
  end.

(** The per-frame work of the render thread on the scene, repeated. *)
Fixpoint frames (n : nat) : M unit :=
  match n with
  | O => ret tt
  | S n' => updateUniformBuffer ;; renderScene ;; frames n'
  end.

Definition Event_is_buffer_update (e : Event) : bool :=
  match e with
  | Scene_updateCamera | vkCmdUpdateBuffer => true
  | _ => false
  end.

Definition Event_is_hdr_load (e : Event) : bool :=
  match e with HdrSampling_loadEnvironment _ => true | _ => false end.

Definition Event_is_scene_load (e : Event) : bool :=
  match e with Scene_load _ => true | _ => false end.

(** ** File names *)

(** The two tests of the loader thread on the extension of the file. *)
Definition is_scene_extension (extension : string) : bool :=
  String.eqb extension ".gltf" || String.eqb extension ".glb".

Definition is_hdr_extension (extension : string) : bool :=
  String.eqb extension ".hdr".

(** A period somewhere in a name. *)
Fixpoint has_period (f : string) : bool :=
  match f with
  | EmptyString => false
  | String c f' => Ascii.eqb c "." || has_period f'
  end.

(** ** The controls of a pass *)

(** Whether the user edited a widget. *)
Definition is_Some {A : Type} (o : option A) : bool :=
  match o with
  | Some _ => true
  | None => false
  end.

Definition any (flags : list bool) : bool := existsb (fun b => b) flags.

(** The object after a widget bound to one of its members ran. *)
Definition edited {A : Type} (e : option A)
    (write : A -> Simulator -> Simulator) (s : Simulator) : Simulator :=
  match e with
  | Some v => write v s
  | None => s
  end.

(** For each panel, the changed flags of the controls it shows in a pass
    that starts from [s], in the order of the code. *)
Definition CameraPanel_controls (w : SimGUI.CameraPanel) : list bool :=
  [is_Some (SimGUI.w_CameraWidget w); SimGUI.w_Aperture w].

Definition DebuggingGroup_controls (mode : Z) (w : SimGUI.DebuggingGroup)
  : list bool :=
  let mode' := match SimGUI.w_DebugMode w with Some v => v | None => mode end in
  is_Some (SimGUI.w_DebugMode w)
  :: (if mode' =? eHeatmap
      then [is_Some (SimGUI.w_MinHeatMap w); is_Some (SimGUI.w_MaxHeatMap w)]
      else []).

Definition RayTracingPanel_controls (s : Simulator)
    (w : SimGUI.RayTracingPanel) : list bool :=
  [is_Some (SimGUI.w_MaxRayDepth w); is_Some (SimGUI.w_SamplesPerFrame w);
   is_Some (SimGUI.w_MaxIteration w); is_Some (SimGUI.w_DeScaling w);
   is_Some (SimGUI.w_Accumulate w); is_Some (SimGUI.w_PbrMode w)]
  ++ (if RndMethod_eqb (m_rndMethod s) eRtxPipeline
      then [is_Some (SimGUI.w_EnableAnyHit w)] else [])
  ++ match SimGUI.g_Debugging w with
     | Some d => DebuggingGroup_controls (debugging_mode (m_rtxState s)) d
     | None => []
     end
  ++ (if m_supportRayQuery s
      then [is_Some (SimGUI.w_RenderingPipeline w)] else []).

Definition TonemapperPanel_controls (s : Simulator)
    (w : SimGUI.TonemapperPanel) : list bool :=
  let auto :=
    match SimGUI.w_AutoExposure w with
    | Some v => v
    | None =>
        SimGUI.bitset_test (SimGUI.bitset8 (autoExposure (m_tonemapper s))) 0
    end in
  [is_Some (SimGUI.w_AutoExposure w); SimGUI.w_Exposure w;
   SimGUI.w_Brightness w; SimGUI.w_Contrast w; SimGUI.w_Saturation w;
   SimGUI.w_Vignette w]
  ++ (if auto
      then match SimGUI.g_AutoSettings w with
           | Some g => [is_Some (SimGUI.w_Local g); SimGUI.w_BurningWhite g;
                        SimGUI.w_Key g]
           | None => []
           end
      else []).

Definition SunGroup_controls (g : SimGUI.SunGroup) : list bool :=
  [SimGUI.w_DirectionGizmo g; SimGUI.w_DirectionInput g; SimGUI.w_DiskScale g;
   SimGUI.w_GlowIntensity g; SimGUI.w_DiskIntensity g; SimGUI.w_NightColor g].

Definition GroundGroup_controls (g : SimGUI.GroundGroup) : list bool :=
  [SimGUI.w_HorizonHeight g; SimGUI.w_HorizonBlur g; SimGUI.w_GroundColor g;
   SimGUI.w_Haze g].

Definition OtherGroup_controls (g : SimGUI.OtherGroup) : list bool :=
  [SimGUI.w_Multiplier g; SimGUI.w_SkySaturation g; SimGUI.w_RedBlueShift g;
   SimGUI.w_RGBConversion g; is_Some (SimGUI.w_YIsUp g)].

Definition group_controls {G : Type} (controls : G -> list bool)
    (g : option G) : list bool :=
  match g with
  | Some w => controls w
  | None => []
  end.

Definition EnvironmentPanel_controls (s : Simulator)
    (w : SimGUI.EnvironmentPanel) : list bool :=
  let in_use' :=
    match SimGUI.w_UseSunSky w with
    | Some v => SimGUI.store_bool v (in_use (m_sunAndSky s))
    | None => in_use (m_sunAndSky s)
    end in
  [is_Some (SimGUI.w_UseSunSky w); is_Some (SimGUI.w_EnvExposure w)]
  ++ (if negb (in_use' =? 0)
      then group_controls SunGroup_controls (SimGUI.g_Sun w)
           ++ group_controls GroundGroup_controls (SimGUI.g_Ground w)
           ++ group_controls OtherGroup_controls (SimGUI.g_Other w)
      else []).

(** The flags that restart the accumulation: those of the camera, ray
    tracing and environment panels whose header is open. *)
Definition restarting_controls (s : Simulator) (p : SimGUI.Pass) : list bool :=
  group_controls CameraPanel_controls (SimGUI.h_Camera p)
  ++ group_controls (RayTracingPanel_controls s) (SimGUI.h_RayTracing p)
  ++ group_controls (EnvironmentPanel_controls s) (SimGUI.h_Environment p).

(** The flags of every render-affecting control, as the specification
    counts them: the tonemapper panel included. *)
Definition render_affecting_controls (s : Simulator) (p : SimGUI.Pass)
  : list bool :=
  group_controls CameraPanel_controls (SimGUI.h_Camera p)
  ++ group_controls (RayTracingPanel_controls s) (SimGUI.h_RayTracing p)
  ++ group_controls (TonemapperPanel_controls s) (SimGUI.h_Tonemapper p)
  ++ group_controls (EnvironmentPanel_controls s) (SimGUI.h_Environment p).

(** What every panel of the settings window leaves alone: the render
    region and the frame counter. *)
Definition panel_keeps (s s' : Simulator) : Prop :=
  m_renderRegion s' = m_renderRegion s /\ frame_of s' = frame_of s.

(** What the camera, ray tracing and tonemapper panels leave alone beyond
    that: the sun and sky block. *)
Definition sky_keeps (s s' : Simulator) : Prop :=
  panel_keeps s s' /\ m_sunAndSky s' = m_sunAndSky s.

(** What the sliders and the "Enable AnyHit" checkbox of the ray tracing
    panel leave alone beyond that: the members the rest of the panel
    branches on. *)
Definition branch_keeps (s s' : Simulator) : Prop :=
  sky_keeps s s'
  /\ m_supportRayQuery s' = m_supportRayQuery s
  /\ m_rndMethod s' = m_rndMethod s
  /\ debugging_mode (m_rtxState s') = debugging_mode (m_rtxState s).

(** ** Sample objects *)

Definition zero_matrix : mat4f := repeat 0 64%nat.

Definition moved_matrix : mat4f := 1 :: repeat 0 63%nat.

Definition fov_60 : float := Eval cbv in Float32.of_Z 60.

(** The object as the default member initializers of simulator.hpp leave
    it, with a camera at rest that [updateFrame] has already seen. *)
Definition startup : Simulator :=
  mkSimulator
    (mkRtxState 0 10 1 Float32.one Float32.one 0 0 0 (0, 0) 0 65000 0)
    (mkSunAndSky 1 1 0)
    (mkTonemapper 0)
    (mkHdrSampling Float32.one)
    true eNone (mkVkRect2D 0 0 0 0) 100000 true false 1 false EmptyString
    (mkCamera zero_matrix fov_60 Float32.one) zero_matrix fov_60 true [].

(** A running viewer: the pipeline renderer active on an 800 x 600 region,
    five frames accumulated out of ten. *)
Definition viewing : Simulator :=
  set_m_maxFrames 10
    (set_m_renderRegion (mkVkRect2D 0 20 800 600)
       (set_m_rndMethod eRtxPipeline (with_frame 5 startup))).

(** The scenario of the specification: a reset counter and ten frames. *)
Definition scenario : Simulator :=
  set_m_maxFrames 10 (with_frame (-1) startup).

Definition still : Camera := mkCamera zero_matrix fov_60 Float32.one.

Definition moved : Camera := mkCamera moved_matrix fov_60 Float32.one.

(** An environment loader for the samples: every file holds an
    environment of integral 1/2. *)
Definition sample_loadEnvironment (_ : string) (_ : HdrSampling) : HdrSampling :=
  mkHdrSampling (S754_finite false 8388608 (-24)).

Definition idle_pass (region : VkRect2D) : SimGUI.Pass :=
  SimGUI.mkPass None None None None false region.

Definition brightness_only : SimGUI.TonemapperPanel :=
  SimGUI.mkTonemapperPanel None false true false false false None.

Definition aperture_only : SimGUI.CameraPanel :=
  SimGUI.mkCameraPanel None true.

(** A pass in which the user drags the "Brightness" slider of the
    tonemapper panel and the viewport keeps its place. *)
Definition brightness_pass : SimGUI.Pass :=
  SimGUI.mkPass None None (Some brightness_only) None false
    (m_renderRegion viewing).

(** A pass in which the user drags the "Aperture" slider while the
    viewport grows by a pixel. *)
Definition aperture_resize_pass : SimGUI.Pass :=
  SimGUI.mkPass (Some aperture_only) None None None false
    (mkVkRect2D 0 20 801 600).

(** ** Notions for the further properties *)

Definition is_nan (f : float) : bool :=
  match f with
  | S754_nan => true
  | _ => false
  end.

(** The counter lies between the reset value and the cap. *)
Definition frame_in_bounds (s : Simulator) : Prop :=
  -1 <= frame_of s <= m_maxFrames s.

(** The size [renderScene] renders at, where the division is defined. *)
Definition render_size (s : Simulator) : Z * Z :=
  let w := extent_width (m_renderRegion s) in
  let h := extent_height (m_renderRegion s) in
  if m_descaling s
  then (w / UInt32.of_int (m_descalingLevel s),
        h / UInt32.of_int (m_descalingLevel s))
  else (w, h).

(** The push-constant block [renderScene] hands to the renderer. *)
Definition pushed_state (s : Simulator) : RtxState :=
  set_size (UInt32.to_int (fst (render_size s)),
            UInt32.to_int (snd (render_size s))) (m_rtxState s).

(** The tail of the trace of [renderScene] under automatic exposure. *)
Definition mipmap_actions (s : Simulator) : list Event :=
  if negb (autoExposure (m_tonemapper s) =? 0)
  then [Profiler_timeRecurring "Mipmap"; RenderOutput_genMipmap]
  else [].

(** The frame indices pushed to a renderer along a trace. *)
Fixpoint pushed_frames (t : list Event) : list Z :=
  match t with
  | [] => []
  | Renderer_setPushContants _ st :: t' => frame st :: pushed_frames t'
  | _ :: t' => pushed_frames t'
  end.

(** The state of the "Auto Exposure" checkbox at the end of a pass over
    the tonemapper panel. *)
Definition auto_exposure_box (old : Z) (w : SimGUI.TonemapperPanel) : bool :=
  match SimGUI.w_AutoExposure w with
  | Some v => v
  | None => SimGUI.bitset_test (SimGUI.bitset8 old) 0
  end.

(** The state of the "Local" checkbox at the end of the pass, when the
    pass showed it. *)
Definition local_box (old : Z) (w : SimGUI.TonemapperPanel) : option bool :=
  if auto_exposure_box old w
  then match SimGUI.g_AutoSettings w with
       | Some g =>
           Some match SimGUI.w_Local g with
                | Some v => v
                | None => SimGUI.bitset_test (SimGUI.bitset8 old) 1
                end
       | None => None
       end
  else None.

(** The word [guiTonemapper] stores in [autoExposure]. *)
Definition tonemapper_word (old : Z) (w : SimGUI.TonemapperPanel) : Z :=
  SimGUI.bitset_set
    (match local_box old w with
     | Some v => SimGUI.bitset_set (SimGUI.bitset8 old) 1 v
     | None => SimGUI.bitset8 old
     end) 0 (auto_exposure_box old w).

(** The actions a pass over the settings window can take. *)
Definition is_gui_action (e : Event) : bool :=
  match e with
  | vkDeviceWaitIdle | Renderer_destroy _ | Renderer_create _
  | RtxPipeline_useAnyHit _ | write_m_rndMethod _ | call_resetFrame => true
  | _ => false
  end.

(** A computation that stays within these actions and leaves the load
    session alone, from every object. *)
Definition gui_confined {A : Type} (m : M A) : Prop :=
  forall s,
    forallb is_gui_action (trace (m s)) = true
    /\ m_busy (final (m s)) = m_busy s
    /\ threads (final (m s)) = threads s
    /\ m_skydome (final (m s)) = m_skydome s.

(** An [int] used as a flag holds 0 or 1. *)
Definition is_flag (z : Z) : Prop := z = 0 \/ z = 1.

(** A pass over the environment panel in which the user ticks "Use Sun &
    Sky" with the group "Other" open; its "Y is Up" checkbox is disabled
    and reports no edit. *)
Definition sun_and_sky_on : SimGUI.EnvironmentPanel :=
  SimGUI.mkEnvironmentPanel (Some true) None None None
    (Some (SimGUI.mkOtherGroup false false false false None)).

(** * Properties *)

(** ** Machine arithmetic *)

Lemma Int32_wrap_in_range (z : Z) : Int32.in_range (Int32.wrap z).
Proof.
  unfold Int32.in_range, Int32.wrap, Int32.min_signed, Int32.max_signed.
  pose proof (Z.mod_pos_bound (z + 2 ^ 31) (2 ^ 32) ltac:(lia)). lia.
Qed.

Lemma Int32_wrap_id (z : Z) : Int32.in_range z -> Int32.wrap z = z.
Proof.
  unfold Int32.in_range, Int32.wrap, Int32.min_signed, Int32.max_signed.
  intros H. rewrite Z.mod_small; lia.
Qed.

(** The increment guarded by a comparison against an [int] does not leave
    the range: the shape of [if (frame < maxFrames) frame++]. *)
Lemma Int32_wrap_succ_below (z bound : Z) :
  Int32.in_range z -> Int32.in_range bound -> z < bound ->
  Int32.wrap (z + 1) = z + 1.
Proof.
  unfold Int32.in_range, Int32.min_signed, Int32.max_signed.
  intros Hz Hb Hlt. apply Int32_wrap_id.
  unfold Int32.in_range, Int32.min_signed, Int32.max_signed. lia.
Qed.

Lemma RndMethod_eqb_spec (a b : RndMethod) :
  reflect (a = b) (RndMethod_eqb a b).
Proof. destruct a, b; cbn; constructor; congruence. Qed.

Lemma RndMethod_eqb_refl (a : RndMethod) : RndMethod_eqb a a = true.
Proof. destruct a; reflexivity. Qed.

Lemma RndMethod_eqb_neq (a b : RndMethod) :
  a <> b -> RndMethod_eqb a b = false.
Proof. intros H. destruct (RndMethod_eqb_spec a b); congruence. Qed.

Lemma memcmp_refl (a : list Z) : memcmp a a = 0.
Proof.
  induction a as [|x a IH]; cbn; [reflexivity|].
  rewrite Z.ltb_irrefl. exact IH.
Qed.

(** On representations of equal size [memcmp] is 0 exactly when they are
    the same bytes. *)
Lemma memcmp_zero_iff (a b : list Z) :
  List.length a = List.length b -> (memcmp a b = 0 <-> a = b).
Proof.
  revert b. induction a as [|x a IH]; intros [|y b] Hlen; cbn in *;
    try discriminate; [tauto|].
  injection Hlen as Hlen.
  destruct (Z.ltb_spec x y); [split; [discriminate | intros [= ]; lia]|].
  destruct (Z.ltb_spec y x); [split; [discriminate | intros [= ]; lia]|].
  assert (x = y) by lia. subst y.
  rewrite (IH b Hlen). split; [congruence | intros [= ]; assumption].
Qed.

(** ** Runs *)

Lemma Run_eta {A : Type} (r : Run A) :
  mkRun (value r) (final r) (trace r) = r.
Proof. destruct r; reflexivity. Qed.

Lemma bind_ret {A B : Type} (a : A) (k : A -> M B) (s : Simulator) :
  bind (ret a) k s = k a s.
Proof. unfold bind, ret; cbn. apply Run_eta. Qed.

Lemma bind_get {B : Type} (k : Simulator -> M B) (s : Simulator) :
  bind get k s = k s s.
Proof. unfold bind, get; cbn. apply Run_eta. Qed.

Lemma bind_modify {B : Type} (f : Simulator -> Simulator) (k : unit -> M B)
    (s : Simulator) :
  bind (modify f) k s = k tt (f s).
Proof. unfold bind, modify; cbn. apply Run_eta. Qed.

Lemma bind_emit {B : Type} (e : Event) (k : unit -> M B) (s : Simulator) :
  bind (emit e) k s = after [e] (k tt s).
Proof. reflexivity. Qed.

Lemma after_mkRun {A : Type} (t : list Event) (v : option A) s t' :
  after t (mkRun v s t') = mkRun v s (t ++ t').
Proof. reflexivity. Qed.

Lemma after_after {A : Type} (t1 t2 : list Event) (r : Run A) :
  after t1 (after t2 r) = after (t1 ++ t2) r.
Proof. unfold after; cbn. rewrite app_assoc. reflexivity. Qed.

Lemma after_nil {A : Type} (r : Run A) : after [] r = r.
Proof. unfold after; cbn. apply Run_eta. Qed.

Lemma bind_undefined {A B : Type} (k : A -> M B) (s : Simulator) :
  bind undefined_behaviour k s = mkRun None s [].
Proof. reflexivity. Qed.

Lemma bind_assoc {A B C : Type} (m : M A) (f : A -> M B) (g : B -> M C)
    (s : Simulator) :
  bind (bind m f) g s = bind m (fun a => bind (f a) g) s.
Proof.
  unfold bind. destruct (m s) as [[a|] s1 t1]; cbn; [|reflexivity].
  destruct (f a s1) as [[b|] s2 t2]; cbn; [|reflexivity].
  rewrite app_assoc. reflexivity.
Qed.

Lemma runs_bind {A B : Type} (m : M A) (k : A -> M B) s a s1 t1 b s2 t2 :
  runs m s a s1 t1 -> runs (k a) s1 b s2 t2 ->
  runs (bind m k) s b s2 (t1 ++ t2).
Proof.
  unfold runs, bind. intros -> . cbn. intros ->. reflexivity.
Qed.

Lemma bind_runs {A B : Type} (m : M A) (k : A -> M B) s a s1 t1 :
  runs m s a s1 t1 -> bind m k s = after t1 (k a s1).
Proof. unfold runs, bind. intros ->. reflexivity. Qed.

Lemma edit_runs {A : Type} (e : option A) write s :
  runs (SimGUI.edit e write) s (is_Some e) (edited e write s) [].
Proof. destruct e; reflexivity. Qed.

Lemma bind_edit {A B : Type} (e : option A) write (k : bool -> M B) s :
  bind (SimGUI.edit e write) k s = k (is_Some e) (edited e write s).
Proof. rewrite (bind_runs _ _ _ _ _ _ (edit_runs e write s)). apply after_nil. Qed.

(** Symbolic execution of a computation from its head. *)
Ltac sim_step :=
  first
    [ rewrite bind_assoc
    | rewrite bind_ret
    | rewrite bind_get
    | rewrite bind_modify
    | rewrite bind_emit
    | rewrite bind_edit
    | rewrite bind_undefined ];
  cbv beta.

Ltac sim := repeat sim_step; rewrite ?after_after, ?after_mkRun; cbn [app].

(** ** Counting actions *)

Lemma count_app (p : Event -> bool) (t1 t2 : list Event) :
  count p (t1 ++ t2) = (count p t1 + count p t2)%nat.
Proof. unfold count. rewrite filter_app, length_app. reflexivity. Qed.

Lemma any_app (l1 l2 : list bool) : any (l1 ++ l2) = any l1 || any l2.
Proof. unfold any. apply existsb_app. Qed.

(** ** The frame counter *)

Lemma resetFrame_runs (s : Simulator) :
  runs resetFrame s tt (with_frame (-1) s) [call_resetFrame].
Proof. reflexivity. Qed.

(** A step without a reset-triggering event advances the counter below the
    cap and does nothing else. *)
Lemma updateFrame_quiet (s : Simulator) :
  camera_changed s = false ->
  runs updateFrame s tt
    (if frame_of s <? m_maxFrames s
     then with_frame (Int32.wrap (frame_of s + 1)) s
     else s) [].
Proof.
  unfold runs, updateFrame, camera_changed. intros H.
  rewrite bind_get. cbv beta zeta. rewrite H.
  rewrite bind_ret, bind_get. unfold frame_of.
  destruct (frame (m_rtxState s) <? m_maxFrames s); reflexivity.
Qed.

(** A step with a reset-triggering event calls [resetFrame], remembers the
    camera, and then still runs the guarded increment on the reset
    counter. *)
Lemma updateFrame_reset (s : Simulator) :
  camera_changed s = true ->
  runs updateFrame s tt
    (if -1 <? m_maxFrames s
     then with_frame 0 (camera_remembered s)
     else camera_remembered s) [call_resetFrame].
Proof.
  unfold runs, updateFrame, camera_changed. intros H.
  rewrite bind_get. cbv beta zeta. rewrite H. cbv iota.
  rewrite bind_assoc.
  rewrite (bind_runs _ _ _ _ _ _ (resetFrame_runs s)). cbv beta. sim. change (frame (m_rtxState _) <? _) with (-1 <? m_maxFrames s).
  destruct (-1 <? m_maxFrames s); reflexivity.
Qed.

Lemma step_quiet (cam : Camera) (s : Simulator) :
  camera_changed (set_CameraManip cam s) = false ->
  frame_of (step cam s) =
    (if frame_of s <? m_maxFrames s
     then Int32.wrap (frame_of s + 1) else frame_of s)
  /\ m_maxFrames (step cam s) = m_maxFrames s.
Proof.
  intros H. unfold step, exec.
  rewrite (updateFrame_quiet _ H). cbn [final].
  change (frame_of (set_CameraManip cam s)) with (frame_of s).
  change (m_maxFrames (set_CameraManip cam s)) with (m_maxFrames s).
  destruct (frame_of s <? m_maxFrames s); split; reflexivity.
Qed.

(** The counter after a sequence of steps without reset-triggering event,
    in closed form. *)
Lemma steps_quiet (cams : list Camera) (s : Simulator) :
  Int32.in_range (frame_of s) -> Int32.in_range (m_maxFrames s) ->
  no_reset_event cams s ->
  frame_of (steps cams s) =
    (if frame_of s <? m_maxFrames s
     then Z.min (frame_of s + Z.of_nat (List.length cams)) (m_maxFrames s)
     else frame_of s)
  /\ m_maxFrames (steps cams s) = m_maxFrames s.
Proof.
  revert s. induction cams as [|cam cams IH]; intros s Hf Hm Hq.
  - cbn [steps List.length Z.of_nat]. split; [|reflexivity].
    destruct (Z.ltb_spec (frame_of s) (m_maxFrames s)); lia.
  - destruct Hq as [Hq Hrest]. cbn [steps].
    destruct (step_quiet cam s Hq) as [Hstep Hmax].
    assert (Hf' : Int32.in_range (frame_of (step cam s))).
    { rewrite Hstep. destruct (_ <? _); [apply Int32_wrap_in_range | exact Hf]. }
    assert (Hm' : Int32.in_range (m_maxFrames (step cam s)))
      by (rewrite Hmax; exact Hm).
    destruct (IH (step cam s) Hf' Hm' Hrest) as [IHf IHm].
    rewrite IHf, IHm, Hmax, Hstep. split; [|reflexivity].
    rewrite length_cons, Nat2Z.inj_succ.
    destruct (Z.ltb_spec (frame_of s) (m_maxFrames s)) as [Hlt|Hge].
    + rewrite (Int32_wrap_succ_below _ _ Hf Hm Hlt).
      destruct (Z.ltb_spec (frame_of s + 1) (m_maxFrames s)); lia.
    + destruct (Z.ltb_spec (frame_of s) (m_maxFrames s)); lia.
Qed.

Lemma no_reset_event_firstn (k : nat) (cams : list Camera) (s : Simulator) :
  no_reset_event cams s -> no_reset_event (firstn k cams) s.
Proof.
  revert cams s. induction k as [|k IH]; intros [|cam cams] s H; cbn;
    try exact I.
  destruct H as [H1 H2]. split; [exact H1 | apply IH; exact H2].
Qed.

(** ** The render that follows a step *)

Lemma bind_m_pRender {B : Type} (k : RndMethod) (f : RndMethod -> M B)
    (s : Simulator) :
  k <> eNone -> bind (m_pRender k) f s = f k s.
Proof. intros H. destruct k; [apply bind_ret | apply bind_ret | congruence]. Qed.

Lemma render_size_of_runs (s : Simulator) :
  (m_descaling s = true -> UInt32.of_int (m_descalingLevel s) <> 0) ->
  render_size_of s = ret (render_size s).
Proof.
  unfold render_size_of, render_size. intros H.
  destruct (m_descaling s); [|reflexivity].
  destruct (Z.eqb_spec (UInt32.of_int (m_descalingLevel s)) 0) as [E|E];
    [exfalso; exact (H eq_refl E) | reflexivity].
Qed.

Lemma renderScene_renders (s : Simulator) :
  m_busy s = false ->
  frame_of s < m_maxFrames s ->
  m_rndMethod s <> eNone ->
  (m_descaling s = true -> UInt32.of_int (m_descalingLevel s) <> 0) ->
  runs renderScene s tt (set_m_rtxState (pushed_state s) s)
    ([Profiler_timeRecurring "Render";
      Renderer_setPushContants (m_rndMethod s) (pushed_state s);
      Renderer_run (m_rndMethod s) (render_size s)]
       ++ mipmap_actions s).
Proof.
  intros Hbusy Hcap Hact Hdiv. unfold runs, renderScene.
  rewrite bind_get. cbv beta. rewrite Hbusy.
  rewrite bind_emit.
  destruct (Z.leb_spec (m_maxFrames s) (frame (m_rtxState s)));
    [unfold frame_of in Hcap; lia|].
  rewrite (render_size_of_runs s Hdiv). sim.
  cbn [m_rndMethod set_m_rtxState].
  rewrite (bind_m_pRender _ _ _ Hact). sim.
  rewrite (bind_m_pRender _ _ _ Hact). sim.
  unfold mipmap_actions, pushed_state.
  cbn [m_tonemapper m_rtxState set_m_rtxState].
  destruct (negb (autoExposure (m_tonemapper s) =? 0)); sim; reflexivity.
Qed.

Lemma pushed_frames_app (a b : list Event) :
  pushed_frames (a ++ b) = pushed_frames a ++ pushed_frames b.
Proof.
  induction a as [|e a IH]; [reflexivity|].
  destruct e; cbn; rewrite ?IH; reflexivity.
Qed.

(** While a load is in progress, and once the counter has reached the cap,
    [renderScene] pushes nothing and runs no renderer. *)
Lemma renderScene_skips (s : Simulator) :
  m_busy s = true \/ m_maxFrames s <= frame_of s ->
  exists t, runs renderScene s tt s t
            /\ pushed_frames t = [] /\ count Event_is_run t = 0%nat.
Proof.
  intros H. unfold runs, renderScene. rewrite bind_get. cbv beta.
  destruct (m_busy s) eqn:B.
  - exists [SimGUI_showBusyWindow]. repeat split.
  - destruct H as [H|H]; [discriminate|].
    exists [Profiler_timeRecurring "Render"]. rewrite bind_emit.
    destruct (Z.leb_spec (m_maxFrames s) (frame (m_rtxState s)));
      [repeat split | unfold frame_of in H; lia].
Qed.

(** C1, as the code has it: a reset-triggering event in a step makes
    [updateFrame] call [resetFrame] once and then run its guarded increment
    on the reset counter, so the counter after the step is 0 whenever
    [m_maxFrames] is above -1 (and -1 otherwise), whatever it was before.
    The [renderScene] that follows renders frame 0, that is, pushes the
    index 0 and runs the renderer once, when no load is in progress,
    [m_maxFrames] is above 0, a renderer is active and the de-scaling
    divisor is not 0; during a load, or with [m_maxFrames] at most 0, it
    pushes nothing and runs no renderer. *)
Theorem reset_then_advance (s : Simulator) :
  camera_changed s = true ->
  frame_of (exec updateFrame s) = (if -1 <? m_maxFrames s then 0 else -1)
  /\ trace (updateFrame s) = [call_resetFrame]
  /\ value (updateFrame s) = Some tt
  /\ refCamMatrix (exec updateFrame s) = getMatrix (CameraManip s)
  /\ fov (exec updateFrame s) = getFov (CameraManip s)
  /\ (m_busy s = false ->
      0 < m_maxFrames s ->
      m_rndMethod s <> eNone ->
      (m_descaling s = true -> UInt32.of_int (m_descalingLevel s) <> 0) ->
      value ((updateFrame ;; renderScene) s) = Some tt
      /\ pushed_frames (trace ((updateFrame ;; renderScene) s)) = [0]
      /\ count Event_is_run (trace ((updateFrame ;; renderScene) s)) = 1%nat)
  /\ (m_busy s = true \/ m_maxFrames s <= 0 ->
      value ((updateFrame ;; renderScene) s) = Some tt
      /\ pushed_frames (trace ((updateFrame ;; renderScene) s)) = []
      /\ count Event_is_run (trace ((updateFrame ;; renderScene) s)) = 0%nat).
Proof.
  intros H. pose proof (updateFrame_reset s H) as R1.
  split; [|split; [|split; [|split; [|split; [|split]]]]].
  1-5: unfold exec; rewrite R1; cbn [final trace value];
    destruct (-1 <? m_maxFrames s); reflexivity.
  - intros Hbusy Hmax Hact Hdiv.
    set (s1 := with_frame 0 (camera_remembered s)).
    assert (R1' : runs updateFrame s tt s1 [call_resetFrame]).
    { revert R1. destruct (Z.ltb_spec (-1) (m_maxFrames s)); [exact id | lia]. }
    rewrite (bind_runs _ _ _ _ _ _ R1'). cbv beta.
    rewrite (renderScene_renders s1 Hbusy Hmax Hact Hdiv).
    rewrite after_mkRun. cbn [value trace].
    split; [reflexivity|]. unfold mipmap_actions.
    destruct (negb (autoExposure (m_tonemapper s1) =? 0)); split; reflexivity.
  - intros Hskip.
    set (s1 := if -1 <? m_maxFrames s
               then with_frame 0 (camera_remembered s)
               else camera_remembered s) in R1.
    assert (Hs1 : m_busy s1 = m_busy s /\ m_maxFrames s1 = m_maxFrames s
                  /\ frame_of s1 = (if -1 <? m_maxFrames s then 0 else -1))
      by (subst s1; destruct (-1 <? m_maxFrames s); repeat split).
    destruct Hs1 as (B1 & M1 & F1).
    destruct (renderScene_skips s1) as (t & R2 & P & C).
    { destruct Hskip as [B|M]; [left; rewrite B1; exact B | right].
      rewrite M1, F1. destruct (Z.ltb_spec (-1) (m_maxFrames s)); lia. }
    rewrite (bind_runs _ _ _ _ _ _ R1). cbv beta. rewrite R2, after_mkRun.
    cbn [value trace].
    split; [reflexivity|]. split.
    + rewrite pushed_frames_app, P. reflexivity.
    + rewrite count_app, C. reflexivity.
Qed.

(** The camera moved while five frames were accumulated: the counter ends
    the step at 0 and the render that follows pushes the index 0. *)
Lemma reset_then_advance_witness :
  frame_of (exec updateFrame (set_CameraManip moved viewing)) = 0
  /\ trace (updateFrame (set_CameraManip moved viewing)) = [call_resetFrame]
  /\ pushed_frames
       (trace ((updateFrame ;; renderScene) (set_CameraManip moved viewing)))
     = [0]
  /\ count Event_is_run
       (trace ((updateFrame ;; renderScene) (set_CameraManip moved viewing)))
     = 1%nat.
Proof.
  destruct (reset_then_advance (set_CameraManip moved viewing) eq_refl)
    as (Hf & Ht & _ & _ & _ & Hrender & _).
  destruct Hrender as (_ & Hp & Hc).
  - reflexivity.
  - reflexivity.
  - cbn. discriminate.
  - cbn. discriminate.
  - split; [exact Hf|]. split; [exact Ht|]. split; [exact Hp | exact Hc].
Defined.

(** C1 as stated fails: with the camera moved in the step, the counter
    after the step is 0, not -1. *)
Lemma reset_supersedes_advance_counterexample :
  camera_changed (set_CameraManip moved viewing) = true
  /\ frame_of (set_CameraManip moved viewing) = 5
  /\ frame_of (exec updateFrame (set_CameraManip moved viewing)) = 0
  /\ frame_of (exec updateFrame (set_CameraManip moved viewing)) <> -1.
Proof. vm_compute. repeat split; discriminate. Qed.

(** C2, as the code has it: from a reset counter and a cap of ten frames,
    twelve steps without reset-triggering event leave the counter at 10,
    the cap itself. *)
Theorem twelve_steps_reach_cap (cams : list Camera) (s : Simulator) :
  List.length cams = 12%nat ->
  frame_of s = -1 ->
  m_maxFrames s = 10 ->
  no_reset_event cams s ->
  frame_of (steps cams s) = 10.
Proof.
  intros Hlen Hf Hm Hq.
  assert (Hrf : Int32.in_range (frame_of s))
    by (rewrite Hf; unfold Int32.in_range, Int32.min_signed, Int32.max_signed; lia).
  assert (Hrm : Int32.in_range (m_maxFrames s))
    by (rewrite Hm; unfold Int32.in_range, Int32.min_signed, Int32.max_signed; lia).
  destruct (steps_quiet cams s Hrf Hrm Hq) as [H _].
  rewrite H, Hlen, Hf, Hm. reflexivity.
Qed.

Lemma twelve_steps_reach_cap_witness :
  frame_of (steps (repeat still 12) scenario) = 10.
Proof.
  apply (twelve_steps_reach_cap (repeat still 12) scenario).
  - reflexivity.
  - reflexivity.
  - reflexivity.
  - vm_compute. repeat split.
Defined.

(** C2 as stated fails: the twelve steps of the scenario, none of which
    sees a reset-triggering event, end at 10 and not at 9. *)
Lemma twelve_steps_counterexample :
  frame_of scenario = -1
  /\ m_maxFrames scenario = 10
  /\ no_reset_event (repeat still 12) scenario
  /\ frame_of (steps (repeat still 12) scenario) = 10
  /\ frame_of (steps (repeat still 12) scenario) <> 9.
Proof.
  split; [reflexivity|]. split; [reflexivity|].
  split; [vm_compute; repeat split|].
  split; [reflexivity | vm_compute; discriminate].
Qed.

(** C4: along every sequence of steps without reset-triggering event the
    counter goes up by exactly 1 per step until it reaches [m_maxFrames],
    and stays there. *)
Theorem monotonic_accumulation (cams : list Camera) (s : Simulator) :
  Int32.in_range (frame_of s) ->
  Int32.in_range (m_maxFrames s) ->
  no_reset_event cams s ->
  forall k : nat, (k <= List.length cams)%nat ->
    frame_of (steps (firstn k cams) s) =
      (if frame_of s <? m_maxFrames s
       then Z.min (frame_of s + Z.of_nat k) (m_maxFrames s)
       else frame_of s)
    /\ m_maxFrames (steps (firstn k cams) s) = m_maxFrames s.
Proof.
  intros Hf Hm Hq k Hk.
  pose proof (no_reset_event_firstn k cams s Hq) as Hq'.
  destruct (steps_quiet (firstn k cams) s Hf Hm Hq') as [H1 H2].
  rewrite H1, H2, length_firstn, Nat.min_l by exact Hk.
  split; reflexivity.
Qed.

Lemma monotonic_accumulation_witness :
  frame_of (steps (firstn 2 (repeat still 3)) scenario) = 1
  /\ frame_of (steps (firstn 3 (repeat still 3)) viewing) = 8.
Proof.
  split.
  - refine (proj1 (monotonic_accumulation (repeat still 3) scenario _ _ _ 2%nat _)).
    + vm_compute. split; discriminate.
    + vm_compute. split; discriminate.
    + vm_compute. repeat split.
    + cbn. lia.
  - refine (proj1 (monotonic_accumulation (repeat still 3) viewing _ _ _ 3%nat _)).
    + vm_compute. split; discriminate.
    + vm_compute. split; discriminate.
    + vm_compute. repeat split.
    + cbn. lia.
Defined.

(** ** Busy exclusion *)

Lemma renderScene_busy (s : Simulator) :
  m_busy s = true -> runs renderScene s tt s [SimGUI_showBusyWindow].
Proof.
  intros H. unfold runs, renderScene. rewrite bind_get. cbv beta.
  rewrite H. reflexivity.
Qed.

Lemma updateUniformBuffer_busy (s : Simulator) :
  m_busy s = true -> runs updateUniformBuffer s tt s [].
Proof.
  intros H. unfold runs, updateUniformBuffer. rewrite bind_get. cbv beta.
  rewrite H. reflexivity.
Qed.

Lemma frames_busy (n : nat) (s : Simulator) :
  m_busy s = true ->
  runs (frames n) s tt s (repeat SimGUI_showBusyWindow n).
Proof.
  intros H. induction n as [|n IH]; [reflexivity|].
  unfold runs in *. cbn [frames repeat].
  rewrite (bind_runs _ _ _ _ _ _ (updateUniformBuffer_busy s H)). cbv beta.
  rewrite (bind_runs _ _ _ _ _ _ (renderScene_busy s H)). cbv beta.
  rewrite IH. reflexivity.
Qed.

Lemma count_repeat_other (p : Event -> bool) (e : Event) (n : nat) :
  p e = false -> count p (repeat e n) = 0%nat.
Proof.
  intros H. unfold count. induction n as [|n IH]; cbn; [reflexivity|].
  rewrite H. exact IH.
Qed.

(** Outside a load the renderer does run: the guard is what keeps it from
    running. *)
Example renderScene_viewing :
  renderScene viewing =
  mkRun (Some tt)
    (set_m_rtxState (set_size (800, 600) (m_rtxState viewing)) viewing)
    [Profiler_timeRecurring "Render";
     Renderer_setPushContants eRtxPipeline
       (set_size (800, 600) (m_rtxState viewing));
     Renderer_run eRtxPipeline (800, 600)].
Proof. reflexivity. Qed.

(** De-scaling divides the extent: a 1024 x 768 region at level 4 is
    rendered at 256 x 192. *)
Example renderScene_descaled :
  trace (renderScene
           (set_m_descaling true
              (set_m_descalingLevel 4
                 (set_m_renderRegion (mkVkRect2D 0 20 1024 768) viewing)))) =
  [Profiler_timeRecurring "Render";
   Renderer_setPushContants eRtxPipeline
     (set_size (256, 192) (m_rtxState viewing));
   Renderer_run eRtxPipeline (256, 192)].
Proof. reflexivity. Qed.

(** C3: in a frame in which [m_busy] is set, [renderScene] shows the busy
    window and returns before the renderer is touched,
    [updateUniformBuffer] does nothing, and however many frames pass while
    the flag stays set, the renderer's [run] is never reached. *)
Theorem busy_exclusion (s : Simulator) :
  m_busy s = true ->
  renderScene s = mkRun (Some tt) s [SimGUI_showBusyWindow]
  /\ updateUniformBuffer s = mkRun (Some tt) s []
  /\ forall n : nat,
       count Event_is_run (trace (frames n s)) = 0%nat
       /\ count Event_is_buffer_update (trace (frames n s)) = 0%nat
       /\ final (frames n s) = s
       /\ value (frames n s) = Some tt.
Proof.
  intros H. split; [exact (renderScene_busy s H)|].
  split; [exact (updateUniformBuffer_busy s H)|].
  intros n. rewrite (frames_busy n s H). cbn [trace final value].
  rewrite !count_repeat_other by reflexivity. repeat split.
Qed.

Lemma busy_exclusion_witness :
  renderScene (set_m_busy true viewing) =
    mkRun (Some tt) (set_m_busy true viewing) [SimGUI_showBusyWindow]
  /\ count Event_is_run (trace (frames 3 (set_m_busy true viewing))) = 0%nat.
Proof.
  destruct (busy_exclusion (set_m_busy true viewing) eq_refl) as [H1 [_ H2]].
  split; [exact H1 | exact (proj1 (H2 3%nat))].
Defined.

(** ** Renderer hot swap *)

Lemma createRender_same (s : Simulator) (method : RndMethod) :
  method = m_rndMethod s -> runs (createRender method) s tt s [].
Proof.
  intros ->. unfold runs, createRender. rewrite bind_get. cbv beta.
  rewrite RndMethod_eqb_refl. reflexivity.
Qed.

Lemma createRender_swap (s : Simulator) (method : RndMethod) :
  method <> m_rndMethod s -> m_rndMethod s <> eNone -> method <> eNone ->
  runs (createRender method) s tt (set_m_rndMethod method s)
    [vkDeviceWaitIdle; Renderer_destroy (m_rndMethod s);
     write_m_rndMethod method; Renderer_create method].
Proof.
  intros Hneq Hact Hkind. unfold runs, createRender, create_active_renderer.
  rewrite bind_get. cbv beta.
  rewrite (RndMethod_eqb_neq _ _ Hneq), (RndMethod_eqb_neq _ _ Hact).
  cbn [negb]. sim.
  destruct (m_rndMethod s) eqn:Ecur; destruct method;
    try congruence; cbn [m_pRender RndMethod_to_int Z.ltb Z.compare];
    sim; reflexivity.
Qed.

Lemma createRender_first (s : Simulator) (method : RndMethod) :
  m_rndMethod s = eNone -> method <> eNone ->
  runs (createRender method) s tt (set_m_rndMethod method s)
    [write_m_rndMethod method; Renderer_create method].
Proof.
  intros Hcur Hkind. unfold runs, createRender, create_active_renderer.
  rewrite bind_get. cbv beta. rewrite Hcur.
  destruct method; try congruence; cbn; reflexivity.
Qed.

(** Whatever is asked for, a swap away from an active renderer starts with
    the idle wait, the destruction of that renderer and the new mark. *)
Lemma createRender_prefix (s : Simulator) (method : RndMethod) :
  method <> m_rndMethod s -> m_rndMethod s <> eNone ->
  exists rest,
    trace (createRender method s) =
    vkDeviceWaitIdle :: Renderer_destroy (m_rndMethod s)
      :: write_m_rndMethod method :: rest.
Proof.
  intros Hneq Hact. unfold createRender, create_active_renderer.
  rewrite bind_get. cbv beta.
  rewrite (RndMethod_eqb_neq _ _ Hneq), (RndMethod_eqb_neq _ _ Hact).
  cbn [negb]. sim.
  destruct (m_rndMethod s) eqn:Ecur; destruct method;
    try congruence; cbn [m_pRender RndMethod_to_int Z.ltb Z.compare];
    sim; cbn [trace]; eexists; reflexivity.
Qed.

(** What the scan of a trace establishes. *)
Lemma drained_before_destroy_sound (t : list Event) :
  drained_before_destroy t = true ->
  forall (t1 t2 : list Event) (k : RndMethod),
    t = t1 ++ Renderer_destroy k :: t2 -> In vkDeviceWaitIdle t1.
Proof.
  induction t as [|e t IH]; intros Hd t1 t2 k Ht.
  - destruct t1; discriminate Ht.
  - destruct t1 as [|e1 t1]; cbn in Ht; injection Ht as He Ht; subst e.
    + cbn in Hd. discriminate Hd.
    + destruct e1; try (right; apply (IH Hd t1 t2 k Ht)).
      * left. reflexivity.
      * cbn in Hd. discriminate Hd.
Qed.

(** Wherever a renderer is destroyed in the trace of [createRender], the
    device was drained before; this holds for every request, [eNone]
    included. *)
Lemma createRender_wait_first (s : Simulator) (method : RndMethod)
    (t1 t2 : list Event) (k : RndMethod) :
  trace (createRender method s) = t1 ++ Renderer_destroy k :: t2 ->
  In vkDeviceWaitIdle t1.
Proof.
  apply drained_before_destroy_sound.
  unfold createRender, create_active_renderer. rewrite bind_get. cbv beta.
  destruct (m_rndMethod s) eqn:Ecur; destruct method; cbn; rewrite ?Ecur;
    reflexivity.
Qed.

(** C5: asking for the active kind does nothing; a swap from an active
    renderer to another one waits for the device, destroys the old
    renderer, marks the new kind and creates the new renderer, in this
    order; and no request ever destroys a renderer before the device was
    drained. *)
Theorem hot_swap_order (s : Simulator) (method : RndMethod) :
  (method = m_rndMethod s ->
   createRender method s = mkRun (Some tt) s [])
  /\ (method <> m_rndMethod s -> m_rndMethod s <> eNone -> method <> eNone ->
      createRender method s =
      mkRun (Some tt) (set_m_rndMethod method s)
        [vkDeviceWaitIdle; Renderer_destroy (m_rndMethod s);
         write_m_rndMethod method; Renderer_create method])
  /\ (method <> m_rndMethod s -> m_rndMethod s <> eNone ->
      exists rest,
        trace (createRender method s) =
        vkDeviceWaitIdle :: Renderer_destroy (m_rndMethod s)
          :: write_m_rndMethod method :: rest)
  /\ (forall (t1 t2 : list Event) (k : RndMethod),
        trace (createRender method s) = t1 ++ Renderer_destroy k :: t2 ->
        In vkDeviceWaitIdle t1).
Proof.
  split; [exact (createRender_same s method)|].
  split; [exact (createRender_swap s method)|].
  split; [exact (createRender_prefix s method)|].
  intros t1 t2 k. exact (createRender_wait_first s method t1 t2 k).
Qed.

Lemma hot_swap_order_witness :
  createRender eRtxPipeline viewing = mkRun (Some tt) viewing []
  /\ createRender eRayQuery viewing =
     mkRun (Some tt) (set_m_rndMethod eRayQuery viewing)
       [vkDeviceWaitIdle; Renderer_destroy eRtxPipeline;
        write_m_rndMethod eRayQuery; Renderer_create eRayQuery].
Proof.
  split.
  - apply (proj1 (hot_swap_order viewing eRtxPipeline)). reflexivity.
  - apply (proj1 (proj2 (hot_swap_order viewing eRayQuery))).
    + cbn. discriminate.
    + cbn. discriminate.
    + discriminate.
Defined.

(** ** Asset loading *)

Section LoaderProperties.

Variable loadEnvironment : string -> HdrSampling -> HdrSampling.

Lemma scene_extension_not_hdr (extension : string) :
  is_scene_extension extension = true -> is_hdr_extension extension = false.
Proof.
  unfold is_scene_extension, is_hdr_extension. intros H.
  apply orb_true_iff in H. destruct H as [H|H];
    apply String.eqb_eq in H; subst extension; reflexivity.
Qed.

Lemma loadEnvironmentHdr_runs (hdrFilename : string) (s : Simulator) :
  runs (loadEnvironmentHdr loadEnvironment hdrFilename) s tt
    (set_m_rtxState
       (set_fireflyClampThreshold
          (Float32.mul (getIntegral (loadEnvironment hdrFilename (m_skydome s)))
             Float32.four)
          (m_rtxState s))
       (set_m_skydome (loadEnvironment hdrFilename (m_skydome s)) s))
    [HdrSampling_loadEnvironment hdrFilename].
Proof. reflexivity. Qed.

Lemma loadAssets_thread_scene (sfile : string) (s : Simulator) :
  is_scene_extension (path_extension sfile) = true ->
  m_rndMethod s <> eNone ->
  runs (loadAssets_thread loadEnvironment sfile) s tt
    (load_ignored (set_m_busyReasonText "Loading scene " s))
    [Scene_load sfile; AccelStructure_create; RayPicker_setTlas;
     call_resetFrame; Renderer_destroy eRtxPipeline;
     Renderer_destroy eRayQuery; Renderer_create (m_rndMethod s);
     call_resetFrame; write_m_busy false].
Proof.
  intros Hscene Hact. pose proof (scene_extension_not_hdr _ Hscene) as Hhdr.
  unfold is_scene_extension, is_hdr_extension in *.
  unfold runs, loadAssets_thread. cbv zeta. rewrite Hscene, Hhdr.
  unfold create_active_renderer, loadScene, resetFrame. sim.
  cbn [m_rndMethod set_m_rtxState set_m_busyReasonText].
  rewrite (bind_m_pRender _ _ _ Hact). sim. reflexivity.
Qed.

Lemma loadAssets_thread_hdr (sfile : string) (s : Simulator) :
  is_hdr_extension (path_extension sfile) = true ->
  runs (loadAssets_thread loadEnvironment sfile) s tt
    (load_ignored
       (exec (loadEnvironmentHdr loadEnvironment sfile)
          (set_m_busyReasonText "Loading HDR " s)))
    [HdrSampling_loadEnvironment sfile; vkUpdateDescriptorSets;
     call_resetFrame; write_m_busy false].
Proof.
  intros Hhdr.
  assert (Hscene : is_scene_extension (path_extension sfile) = false).
  { destruct (is_scene_extension (path_extension sfile)) eqn:E; [|reflexivity].
    rewrite (scene_extension_not_hdr _ E) in Hhdr. discriminate. }
  unfold is_scene_extension, is_hdr_extension in *.
  unfold runs, loadAssets_thread. cbv zeta. rewrite Hscene, Hhdr.
  unfold loadEnvironmentHdr, updateHdrDescriptors, resetFrame. sim.
  reflexivity.
Qed.

Lemma loadAssets_thread_other (sfile : string) (s : Simulator) :
  is_scene_extension (path_extension sfile) = false ->
  is_hdr_extension (path_extension sfile) = false ->
  runs (loadAssets_thread loadEnvironment sfile) s tt (load_ignored s)
    [call_resetFrame; write_m_busy false].
Proof.
  intros Hscene Hhdr. unfold is_scene_extension, is_hdr_extension in *.
  unfold runs, loadAssets_thread. cbv zeta. rewrite Hscene, Hhdr.
  reflexivity.
Qed.

Lemma loadAssets_runs (filename : string) (s : Simulator) :
  runs (loadAssets filename) s tt
    (set_threads (threads s ++ [filename]) (set_m_busy true s))
    [write_m_busy true; vkDeviceWaitIdle; thread_detach filename].
Proof. reflexivity. Qed.

(** A session that starts with no loader pending is the request followed
    by its own thread. *)
Lemma load_session_runs (filename : string) (s : Simulator) :
  threads s = [] ->
  load_session loadEnvironment filename s =
  after [write_m_busy true; vkDeviceWaitIdle; thread_detach filename]
    (loadAssets_thread loadEnvironment filename
       (set_threads [] (set_m_busy true s))).
Proof.
  intros H. unfold load_session.
  rewrite (bind_runs _ _ _ _ _ _ (loadAssets_runs filename s)). cbv beta.
  unfold run_thread. rewrite bind_get. cbv beta.
  cbn [threads set_threads]. rewrite H. cbn [app].
  rewrite bind_modify. reflexivity.
Qed.

Lemma load_ignored_session (s : Simulator) :
  threads s = [] -> m_busy s = false ->
  load_ignored (set_threads [] (set_m_busy true s)) = with_frame (-1) s.
Proof. destruct s; cbn. intros -> ->. reflexivity. Qed.

End LoaderProperties.

(** ** File names *)

Lemma has_separator_app (a b : string) :
  has_separator (a ++ b) = has_separator a || has_separator b.
Proof.
  induction a as [|c a IH]; cbn; [reflexivity|].
  rewrite IH, orb_assoc. reflexivity.
Qed.

Lemma path_filename_plain (p : string) :
  has_separator p = false -> path_filename p = p.
Proof.
  destruct p as [|c p]; cbn; [reflexivity|]. intros ->. reflexivity.
Qed.

Lemma path_filename_in_directory (dir name : string) :
  path_filename (dir ++ String "/" name) = path_filename name.
Proof.
  induction dir as [|c dir IH]; cbn [append path_filename].
  - reflexivity.
  - rewrite has_separator_app. cbn [has_separator Ascii.eqb Bool.eqb].
    cbn. rewrite !orb_true_r. exact IH.
Qed.

Lemma from_last_period_none (f : string) :
  has_period f = false -> from_last_period f = None.
Proof.
  induction f as [|c f IH]; cbn; [reflexivity|]. intros H.
  apply orb_false_iff in H. destruct H as [Hc Hf].
  rewrite (IH Hf), Hc. reflexivity.
Qed.

Lemma from_last_period_suffix (stem rest : string) :
  has_period rest = false ->
  from_last_period (stem ++ String "." rest) = Some (String "." rest).
Proof.
  intros H. induction stem as [|c stem IH]; cbn [append from_last_period].
  - rewrite (from_last_period_none rest H). reflexivity.
  - rewrite IH. reflexivity.
Qed.

(** A file name made of a non-empty stem, a period and a suffix without
    period has that period and suffix as its extension, in any directory.
    This covers [scene.glb], [env.hdr] and [notes.txt]. *)
Lemma path_extension_of_name (dir stem rest : string) :
  stem <> EmptyString -> rest <> EmptyString ->
  has_separator stem = false -> has_separator rest = false ->
  has_period rest = false ->
  path_extension (stem ++ String "." rest) = String "." rest
  /\ path_extension (dir ++ String "/" (stem ++ String "." rest))
     = String "." rest.
Proof.
  intros Hstem Hrest Hs1 Hs2 Hp.
  assert (Hname : path_extension (stem ++ String "." rest) = String "." rest).
  { unfold path_extension. rewrite path_filename_plain.
    2:{ rewrite has_separator_app. cbn. rewrite Hs1, Hs2. reflexivity. }
    destruct stem as [|c stem]; [congruence|]. cbn [append].
    rewrite from_last_period_suffix by exact Hp.
    replace (String.eqb (stem ++ String "." rest) ".") with false.
    - rewrite andb_false_r. reflexivity.
    - symmetry. apply String.eqb_neq. intros E.
      destruct stem as [|c' stem]; cbn in E.
      + injection E as E. congruence.
      + injection E as _ E. destruct stem; discriminate. }
  split; [exact Hname|].
  unfold path_extension in *. rewrite path_filename_in_directory. exact Hname.
Qed.

(** A file whose whole name is [.hdr] or [.glb] has no extension: the
    period that opens a file name does not count. *)
Example path_extension_hidden :
  path_extension "env/.hdr" = EmptyString
  /\ path_extension ".glb" = EmptyString
  /\ path_extension "scene.GLB" = ".GLB"%string.
Proof. repeat split. Qed.

(** ** Load sessions *)

(** C7, as the code has it: the loader thread takes the scene path alone on
    the extensions [.gltf] and [.glb], the environment path alone on
    [.hdr], and neither on any other extension; in that last case it still
    resets the frame counter to -1 before it lowers [m_busy], and changes
    nothing else. *)
Theorem extension_dispatch
    (loadEnvironment : string -> HdrSampling -> HdrSampling)
    (sfile : string) (s : Simulator) :
  (is_scene_extension (path_extension sfile) = true ->
   m_rndMethod s <> eNone ->
   trace (loadAssets_thread loadEnvironment sfile s) =
     [Scene_load sfile; AccelStructure_create; RayPicker_setTlas;
      call_resetFrame; Renderer_destroy eRtxPipeline;
      Renderer_destroy eRayQuery; Renderer_create (m_rndMethod s);
      call_resetFrame; write_m_busy false]
   /\ count Event_is_hdr_load
        (trace (loadAssets_thread loadEnvironment sfile s)) = 0%nat)
  /\ (is_hdr_extension (path_extension sfile) = true ->
      trace (loadAssets_thread loadEnvironment sfile s) =
        [HdrSampling_loadEnvironment sfile; vkUpdateDescriptorSets;
         call_resetFrame; write_m_busy false]
      /\ count Event_is_scene_load
           (trace (loadAssets_thread loadEnvironment sfile s)) = 0%nat)
  /\ (is_scene_extension (path_extension sfile) = false ->
      is_hdr_extension (path_extension sfile) = false ->
      loadAssets_thread loadEnvironment sfile s =
        mkRun (Some tt) (set_m_busy false (with_frame (-1) s))
          [call_resetFrame; write_m_busy false]).
Proof.
  split; [|split].
  - intros Hscene Hact.
    rewrite (loadAssets_thread_scene loadEnvironment sfile s Hscene Hact).
    split; reflexivity.
  - intros Hhdr.
    rewrite (loadAssets_thread_hdr loadEnvironment sfile s Hhdr).
    split; reflexivity.
  - intros Hscene Hhdr.
    exact (loadAssets_thread_other loadEnvironment sfile s Hscene Hhdr).
Qed.

Lemma extension_dispatch_witness :
  trace (loadAssets_thread sample_loadEnvironment "scene.glb" viewing) =
    [Scene_load "scene.glb"; AccelStructure_create; RayPicker_setTlas;
     call_resetFrame; Renderer_destroy eRtxPipeline;
     Renderer_destroy eRayQuery; Renderer_create eRtxPipeline;
     call_resetFrame; write_m_busy false]
  /\ trace (loadAssets_thread sample_loadEnvironment "env.hdr" viewing) =
    [HdrSampling_loadEnvironment "env.hdr"; vkUpdateDescriptorSets;
     call_resetFrame; write_m_busy false]
  /\ loadAssets_thread sample_loadEnvironment "notes.txt" viewing =
     mkRun (Some tt) (set_m_busy false (with_frame (-1) viewing))
       [call_resetFrame; write_m_busy false].
Proof.
  split; [|split].
  - refine (proj1 (proj1 (extension_dispatch sample_loadEnvironment
                            "scene.glb" viewing) _ _)).
    + reflexivity.
    + cbn. discriminate.
  - refine (proj1 (proj1 (proj2 (extension_dispatch sample_loadEnvironment
                                   "env.hdr" viewing)) _)).
    reflexivity.
  - refine (proj2 (proj2 (extension_dispatch sample_loadEnvironment
                            "notes.txt" viewing)) _ _).
    + reflexivity.
    + reflexivity.
Defined.

(** C7 as stated fails on its last part: a load session for [notes.txt]
    takes neither path and ends with [m_busy] lowered, but it changes the
    object: five accumulated frames are reset to -1. *)
Lemma extension_dispatch_counterexample :
  m_busy viewing = false
  /\ frame_of viewing = 5
  /\ count Event_is_scene_load
       (trace (load_session sample_loadEnvironment "notes.txt" viewing)) = 0%nat
  /\ count Event_is_hdr_load
       (trace (load_session sample_loadEnvironment "notes.txt" viewing)) = 0%nat
  /\ m_busy (exec (load_session sample_loadEnvironment "notes.txt") viewing)
     = false
  /\ frame_of (exec (load_session sample_loadEnvironment "notes.txt") viewing)
     = -1
  /\ exec (load_session sample_loadEnvironment "notes.txt") viewing <> viewing.
Proof.
  repeat split; try reflexivity.
  intros E. apply (f_equal frame_of) in E. vm_compute in E. discriminate.
Qed.

(** Every way through the loader thread ends with the reset and the
    lowering of the flag. *)
Lemma loadAssets_thread_completion
    (loadEnvironment : string -> HdrSampling -> HdrSampling)
    (sfile : string) (s : Simulator) :
  (is_scene_extension (path_extension sfile) = true -> m_rndMethod s <> eNone) ->
  exists s' t,
    runs (loadAssets_thread loadEnvironment sfile) s tt s'
      (t ++ [call_resetFrame; write_m_busy false])
    /\ frame_of s' = -1 /\ m_busy s' = false.
Proof.
  intros Hact.
  destruct (is_scene_extension (path_extension sfile)) eqn:Hscene.
  - eexists. exists [Scene_load sfile; AccelStructure_create; RayPicker_setTlas;
                     call_resetFrame; Renderer_destroy eRtxPipeline;
                     Renderer_destroy eRayQuery; Renderer_create (m_rndMethod s)].
    split; [exact (loadAssets_thread_scene loadEnvironment sfile s Hscene
                     (Hact eq_refl))|].
    split; reflexivity.
  - destruct (is_hdr_extension (path_extension sfile)) eqn:Hhdr.
    + eexists. exists [HdrSampling_loadEnvironment sfile; vkUpdateDescriptorSets].
      split; [exact (loadAssets_thread_hdr loadEnvironment sfile s Hhdr)|].
      split; reflexivity.
    + eexists. exists [].
      split; [exact (loadAssets_thread_other loadEnvironment sfile s Hscene Hhdr)|].
      split; reflexivity.
Qed.

(** C8: whatever the file is and whatever the environment loader does, the
    loader thread of a session runs to its end, and its last two actions
    are the reset of the frame counter to -1 and then the lowering of
    [m_busy].  (A scene can only be loaded with a renderer active: the
    thread re-creates the active renderer.) *)
Theorem load_completion
    (loadEnvironment : string -> HdrSampling -> HdrSampling)
    (sfile : string) (s : Simulator) :
  (is_scene_extension (path_extension sfile) = true -> m_rndMethod s <> eNone) ->
  (value (loadAssets_thread loadEnvironment sfile s) = Some tt
   /\ (exists t,
         trace (loadAssets_thread loadEnvironment sfile s) =
         t ++ [call_resetFrame; write_m_busy false])
   /\ frame_of (exec (loadAssets_thread loadEnvironment sfile) s) = -1
   /\ m_busy (exec (loadAssets_thread loadEnvironment sfile) s) = false)
  /\ (threads s = [] ->
      value (load_session loadEnvironment sfile s) = Some tt
      /\ (exists t,
            trace (load_session loadEnvironment sfile s) =
            [write_m_busy true; vkDeviceWaitIdle; thread_detach sfile]
              ++ t ++ [call_resetFrame; write_m_busy false])
      /\ frame_of (exec (load_session loadEnvironment sfile) s) = -1
      /\ m_busy (exec (load_session loadEnvironment sfile) s) = false).
Proof.
  intros Hact. split.
  - destruct (loadAssets_thread_completion loadEnvironment sfile s Hact)
      as (s' & t & Hrun & Hf & Hb).
    unfold exec. rewrite Hrun. cbn [value trace final].
    split; [reflexivity|].
    split; [exists t; rewrite Hrun; reflexivity|].
    split; assumption.
  - intros Hthreads.
    destruct (loadAssets_thread_completion loadEnvironment sfile
                (set_threads [] (set_m_busy true s)) Hact)
      as (s' & t & Hrun & Hf & Hb).
    unfold exec. rewrite (load_session_runs loadEnvironment sfile s Hthreads).
    rewrite Hrun. cbn [after value trace final].
    split; [reflexivity|].
    split; [|split; assumption].
    exists t. rewrite Hrun. reflexivity.
Qed.

Lemma load_completion_witness :
  frame_of (exec (load_session sample_loadEnvironment "scene.gltf") viewing) = -1
  /\ m_busy (exec (load_session sample_loadEnvironment "scene.gltf") viewing)
     = false
  /\ frame_of (exec (loadAssets_thread sample_loadEnvironment "env.hdr")
                 (set_m_busy true startup)) = -1.
Proof.
  split; [|split].
  - refine (proj1 (proj2 (proj2 (proj2 (load_completion sample_loadEnvironment
              "scene.gltf" viewing _) eq_refl)))).
    intros _. cbn. discriminate.
  - refine (proj2 (proj2 (proj2 (proj2 (load_completion sample_loadEnvironment
              "scene.gltf" viewing _) eq_refl)))).
    intros _. cbn. discriminate.
  - refine (proj1 (proj2 (proj2 (proj1 (load_completion sample_loadEnvironment
              "env.hdr" (set_m_busy true startup) _))))).
    cbn. discriminate.
Defined.

(** A scene file dropped before any renderer was created makes the loader
    thread index [m_pRender] with [eNone]: no completion is defined. *)
Example loadAssets_thread_without_renderer :
  value (loadAssets_thread sample_loadEnvironment "scene.glb" startup) = None.
Proof. reflexivity. Qed.

(** ** File drop *)

Lemma onFileDrop_idle (filename : string) (s : Simulator) :
  m_busy s = false -> onFileDrop filename s = loadAssets filename s.
Proof.
  intros H. unfold onFileDrop. rewrite bind_get. cbv beta. rewrite H.
  reflexivity.
Qed.

Lemma menuBar_open_scene (m : SimGUI.Menu) (name : string) (s : Simulator) :
  SimGUI.i_OpenGLTFScene m = Some name ->
  exists rest,
    trace (SimGUI.menuBar m s) =
    write_m_busy true :: vkDeviceWaitIdle :: thread_detach name :: rest.
Proof.
  intros H. unfold SimGUI.menuBar. rewrite H. cbv iota.
  rewrite (bind_runs _ _ _ _ _ _ (loadAssets_runs name s)). cbv beta.
  cbn [after trace app]. eexists. reflexivity.
Qed.

(** C9: a file dropped while [m_busy] is set is rejected: [onFileDrop]
    returns at once, does not reach [loadAssets] and changes nothing.  The
    menu items have no such guard: picked while [m_busy] is set, they
    start a session all the same. *)
Theorem file_drop_rejected (filename : string) (s : Simulator) :
  m_busy s = true ->
  onFileDrop filename s = mkRun (Some tt) s []
  /\ (forall (m : SimGUI.Menu) (name : string),
        SimGUI.i_OpenGLTFScene m = Some name ->
        exists rest,
          trace (SimGUI.menuBar m s) =
          write_m_busy true :: vkDeviceWaitIdle :: thread_detach name :: rest).
Proof.
  intros H. split.
  - unfold onFileDrop. rewrite bind_get. cbv beta. rewrite H. reflexivity.
  - intros m name Hm. exact (menuBar_open_scene m name s Hm).
Qed.

Lemma file_drop_rejected_witness :
  onFileDrop "scene.glb" (set_m_busy true viewing) =
  mkRun (Some tt) (set_m_busy true viewing) [].
Proof.
  exact (proj1 (file_drop_rejected "scene.glb" (set_m_busy true viewing) eq_refl)).
Defined.

(** Outside a session the same drop starts one. *)
Example file_drop_accepted :
  trace (onFileDrop "scene.glb" viewing) =
  [write_m_busy true; vkDeviceWaitIdle; thread_detach "scene.glb"].
Proof. reflexivity. Qed.

(** ** The environment and the firefly clamp *)

(** C10: [loadEnvironmentHdr] loads the environment and then sets
    [fireflyClampThreshold] to the single-precision product of the
    integral of the loaded environment and 4, leaving the rest of the
    push-constant block as it was. *)
Theorem hdr_sets_firefly_clamp
    (loadEnvironment : string -> HdrSampling -> HdrSampling)
    (hdrFilename : string) (s : Simulator) :
  value (loadEnvironmentHdr loadEnvironment hdrFilename s) = Some tt
  /\ trace (loadEnvironmentHdr loadEnvironment hdrFilename s) =
     [HdrSampling_loadEnvironment hdrFilename]
  /\ m_skydome (exec (loadEnvironmentHdr loadEnvironment hdrFilename) s) =
     loadEnvironment hdrFilename (m_skydome s)
  /\ fireflyClampThreshold
       (m_rtxState (exec (loadEnvironmentHdr loadEnvironment hdrFilename) s)) =
     Float32.mul
       (getIntegral
          (m_skydome (exec (loadEnvironmentHdr loadEnvironment hdrFilename) s)))
       Float32.four
  /\ m_rtxState (exec (loadEnvironmentHdr loadEnvironment hdrFilename) s) =
     set_fireflyClampThreshold
       (Float32.mul
          (getIntegral (loadEnvironment hdrFilename (m_skydome s)))
          Float32.four)
       (m_rtxState s).
Proof.
  unfold exec. rewrite (loadEnvironmentHdr_runs loadEnvironment hdrFilename s).
  repeat split.
Qed.

(** An environment of integral 1/2 sets the threshold to 2; the initial
    threshold was 1. *)
Example hdr_sets_firefly_clamp_sample :
  fireflyClampThreshold (m_rtxState viewing) = Float32.one
  /\ fireflyClampThreshold
       (m_rtxState (exec (loadAssets_thread sample_loadEnvironment "env.hdr")
                      viewing)) = S754_finite false 8388608 (-22).
Proof. split; reflexivity. Qed.

(** The product is the IEEE one: it overflows to infinity and keeps a NaN. *)
Example firefly_clamp_overflow :
  Float32.mul (S754_finite false 16777215 104) Float32.four
    = S754_infinity false
  /\ Float32.mul S754_nan Float32.four = S754_nan.
Proof. split; reflexivity. Qed.

(** ** The settings panel *)

Lemma runs_value {A : Type} (m : M A) s (a b : A) s' t :
  runs m s a s' t -> a = b -> runs m s b s' t.
Proof. intros H <-. exact H. Qed.

Lemma panel_keeps_refl (s : Simulator) : panel_keeps s s.
Proof. split; reflexivity. Qed.

Lemma panel_keeps_trans (s1 s2 s3 : Simulator) :
  panel_keeps s1 s2 -> panel_keeps s2 s3 -> panel_keeps s1 s3.
Proof. intros [A1 A2] [B1 B2]. split; congruence. Qed.

Lemma sky_keeps_refl (s : Simulator) : sky_keeps s s.
Proof. split; [apply panel_keeps_refl | reflexivity]. Qed.

Lemma sky_keeps_trans (s1 s2 s3 : Simulator) :
  sky_keeps s1 s2 -> sky_keeps s2 s3 -> sky_keeps s1 s3.
Proof.
  intros [A1 A2] [B1 B2].
  split; [exact (panel_keeps_trans _ _ _ A1 B1) | congruence].
Qed.

Lemma branch_keeps_refl (s : Simulator) : branch_keeps s s.
Proof. split; [apply sky_keeps_refl | repeat split]. Qed.

Lemma branch_keeps_trans (s1 s2 s3 : Simulator) :
  branch_keeps s1 s2 -> branch_keeps s2 s3 -> branch_keeps s1 s3.
Proof.
  intros [A1 [A2 [A3 A4]]] [B1 [B2 [B3 B4]]].
  split; [exact (sky_keeps_trans _ _ _ A1 B1) | repeat split; congruence].
Qed.

(** A widget whose writer keeps a relation to the start keeps it too. *)
Lemma edited_keeps {A : Type} (R : Simulator -> Simulator -> Prop)
    (e : option A) write (s0 s : Simulator) :
  (forall v s1, R s0 s1 -> R s0 (write v s1)) ->
  R s0 s -> R s0 (edited e write s).
Proof. intros Hw Hs. destruct e; cbn; [apply Hw; exact Hs | exact Hs]. Qed.

Lemma any_if_true (c : bool) (l : list bool) :
  any (if c then l else []) = c && any l.
Proof. destruct c; reflexivity. Qed.

(** *** The camera panel *)

Lemma guiCamera_runs (w : SimGUI.CameraPanel) (s : Simulator) :
  runs (SimGUI.guiCamera w) s (any (CameraPanel_controls w))
    (edited (SimGUI.w_CameraWidget w) set_CameraManip s) [].
Proof.
  unfold runs, SimGUI.guiCamera. sim.
  unfold CameraPanel_controls, any. cbn [existsb].
  rewrite orb_false_r. reflexivity.
Qed.

(** *** The ray tracing panel *)

Lemma createRender_kind_runs (method : RndMethod) (s : Simulator) :
  method <> eNone ->
  exists s' t,
    runs (createRender method) s tt s' t
    /\ count Event_is_reset t = 0%nat
    /\ sky_keeps s s'
    /\ m_tonemapper s' = m_tonemapper s.
Proof.
  intros Hkind. destruct (RndMethod_eqb_spec method (m_rndMethod s)) as [E|E].
  - exists s, []. split; [exact (createRender_same s method E)|].
    split; [reflexivity|]. split; [apply sky_keeps_refl | reflexivity].
  - destruct (RndMethod_eqb_spec (m_rndMethod s) eNone) as [N|N].
    + eexists. eexists. split; [exact (createRender_first s method N Hkind)|].
      repeat split.
    + eexists. eexists. split; [exact (createRender_swap s method E N Hkind)|].
      repeat split.
Qed.

Lemma guiRayTracing_AnyHit_runs (changed : bool) (e : option bool)
    (s : Simulator) :
  exists s' t,
    runs (SimGUI.guiRayTracing_AnyHit changed e) s
      (changed
       || any (if RndMethod_eqb (m_rndMethod s) eRtxPipeline
               then [is_Some e] else []))
      s' t
    /\ count Event_is_reset t = 0%nat
    /\ branch_keeps s s'
    /\ m_tonemapper s' = m_tonemapper s.
Proof.
  unfold runs, SimGUI.guiRayTracing_AnyHit. rewrite bind_get. cbv beta.
  destruct (RndMethod_eqb_spec (m_rndMethod s) eRtxPipeline) as [E|E].
  - destruct e as [b|]; cbn [SimGUI.edit]; sim.
    + rewrite E. cbn [m_pRender RndMethod_to_int Z.ltb Z.compare]. sim.
      eexists. eexists. split.
      * cbn [any existsb is_Some]. rewrite orb_true_r. reflexivity.
      * repeat split.
    + eexists. eexists. split.
      * cbn [any existsb is_Some]. rewrite orb_false_r. reflexivity.
      * repeat split.
  - eexists. eexists. split.
    + cbn [any existsb]. rewrite orb_false_r. reflexivity.
    + repeat split.
Qed.

(** Both sides of an equation between disjunctions of flags, flattened. *)
Ltac bool_norm :=
  cbn [any existsb is_Some app];
  rewrite ?orb_false_r, ?orb_false_l, ?orb_true_r, ?orb_true_l, ?orb_assoc;
  reflexivity.

Lemma guiRayTracing_Debugging_runs (changed : bool)
    (d : SimGUI.DebuggingGroup) (s : Simulator) :
  exists s',
    runs (SimGUI.guiRayTracing_Debugging changed d) s
      (changed || any (DebuggingGroup_controls (debugging_mode (m_rtxState s)) d))
      s' []
    /\ sky_keeps s s'
    /\ m_supportRayQuery s' = m_supportRayQuery s
    /\ m_tonemapper s' = m_tonemapper s.
Proof.
  unfold DebuggingGroup_controls.
  destruct d as [mode mn mx]. cbn [SimGUI.w_DebugMode SimGUI.w_MinHeatMap
    SimGUI.w_MaxHeatMap].
  set (mode' := match mode with Some v => v | None => _ end).
  assert (Hmode : debugging_mode
            (m_rtxState
               (edited mode
                  (fun v => SimGUI.on_rtxState (set_debugging_mode v)) s))
          = mode') by (destruct mode; reflexivity).
  assert (Hkeep : forall s1, sky_keeps s s1 /\ m_supportRayQuery s1 = m_supportRayQuery s
                              /\ m_tonemapper s1 = m_tonemapper s ->
            forall (e : option Z) f,
              (f = set_debugging_mode \/ f = set_minHeatmap \/ f = set_maxHeatmap) ->
              let s2 := edited e (fun v => SimGUI.on_rtxState (f v)) s1 in
              sky_keeps s s2 /\ m_supportRayQuery s2 = m_supportRayQuery s
              /\ m_tonemapper s2 = m_tonemapper s).
  { intros s1 [[[K1 K2] K3] [K4 K5]] e f Hf. cbv zeta.
    destruct e as [v|]; cbn [edited]; [|repeat split; assumption].
    destruct Hf as [ -> | [ -> | -> ] ]; repeat split; assumption. }
  assert (K0 : sky_keeps s s /\ m_supportRayQuery s = m_supportRayQuery s
               /\ m_tonemapper s = m_tonemapper s)
    by (split; [apply sky_keeps_refl | split; reflexivity]).
  pose proof (Hkeep _ K0 mode _ (or_introl eq_refl)) as K1. cbv zeta in K1.
  destruct (mode' =? eHeatmap) eqn:Eheat.
  - eexists. split.
    + eapply runs_value.
      * unfold runs, SimGUI.guiRayTracing_Debugging.
        cbn [SimGUI.w_DebugMode SimGUI.w_MinHeatMap SimGUI.w_MaxHeatMap]. sim.
        rewrite Hmode, Eheat. sim. reflexivity.
      * bool_norm.
    + pose proof (Hkeep _ K1 mn _ (or_intror (or_introl eq_refl))) as K2.
      cbv zeta in K2.
      exact (Hkeep _ K2 mx _ (or_intror (or_intror eq_refl))).
  - eexists. split.
    + eapply runs_value.
      * unfold runs, SimGUI.guiRayTracing_Debugging.
        cbn [SimGUI.w_DebugMode SimGUI.w_MinHeatMap SimGUI.w_MaxHeatMap]. sim.
        rewrite Hmode, Eheat. reflexivity.
      * bool_norm.
    + exact K1.
Qed.

Lemma guiRayTracing_RenderingPipeline_runs (changed : bool)
    (e : option SimGUI.PipelineChoice) (s : Simulator) :
  exists s' t,
    runs (SimGUI.guiRayTracing_RenderingPipeline changed e) s
      (changed || any (if m_supportRayQuery s then [is_Some e] else []))
      s' t
    /\ count Event_is_reset t = 0%nat
    /\ sky_keeps s s'
    /\ m_tonemapper s' = m_tonemapper s.
Proof.
  unfold runs, SimGUI.guiRayTracing_RenderingPipeline.
  rewrite bind_get. cbv beta.
  destruct (m_supportRayQuery s).
  - destruct e as [choice|].
    + destruct (createRender_kind_runs (SimGUI.PipelineChoice_method choice) s)
        as (s' & t & Hrun & Hcount & Hsky & Htm);
        [destruct choice; discriminate|].
      cbv zeta. rewrite (bind_runs _ _ _ _ _ _ Hrun). cbv beta.
      exists s', t. split.
      * unfold ret. rewrite after_mkRun, app_nil_r.
        cbn [any existsb is_Some]. rewrite orb_true_r. reflexivity.
      * split; [exact Hcount|]. split; [exact Hsky | exact Htm].
    + exists s, []. split.
      * cbn [any existsb is_Some]. rewrite orb_false_r. reflexivity.
      * split; [reflexivity|]. split; [apply sky_keeps_refl | reflexivity].
  - exists s, []. split.
    + cbn [any existsb]. rewrite orb_false_r. reflexivity.
    + split; [reflexivity|]. split; [apply sky_keeps_refl | reflexivity].
Qed.

(** The six sliders at the head of the panel. *)
Lemma guiRayTracing_sliders_keep (w : SimGUI.RayTracingPanel) (s : Simulator) :
  let s6 :=
    edited (SimGUI.w_PbrMode w)
      (fun v => SimGUI.on_rtxState (set_pbrMode v))
      (edited (SimGUI.w_Accumulate w)
         (fun v => SimGUI.on_rtxState (set_accumulate v))
         (edited (SimGUI.w_DeScaling w) set_m_descalingLevel
            (edited (SimGUI.w_MaxIteration w) set_m_maxFrames
               (edited (SimGUI.w_SamplesPerFrame w)
                  (fun v => SimGUI.on_rtxState (set_maxSamples v))
                  (edited (SimGUI.w_MaxRayDepth w)
                     (fun v => SimGUI.on_rtxState (set_maxDepth v)) s))))) in
  branch_keeps s s6 /\ m_tonemapper s6 = m_tonemapper s.
Proof.
  cbv zeta. split.
  - repeat (apply edited_keeps;
            [intros v s1 [[[K1 K2] K3] [K4 [K5 K6]]]; repeat split; assumption|]).
    apply branch_keeps_refl.
  - repeat (apply (edited_keeps (fun s0 s1 => m_tonemapper s1 = m_tonemapper s0));
            [intros v s1 K; exact K|]).
    reflexivity.
Qed.

Lemma guiRayTracing_runs (w : SimGUI.RayTracingPanel) (s : Simulator) :
  exists s' t,
    runs (SimGUI.guiRayTracing w) s (any (RayTracingPanel_controls s w)) s' t
    /\ count Event_is_reset t = 0%nat
    /\ sky_keeps s s'
    /\ m_tonemapper s' = m_tonemapper s.
Proof.
  unfold runs, SimGUI.guiRayTracing. cbv zeta. sim.
  destruct (guiRayTracing_sliders_keep w s) as [K6 T6]. cbv zeta in K6, T6.
  set (s6 := edited (SimGUI.w_PbrMode w) _ _) in *.
  set (c6 := false || _ || _ || _ || _ || _ || _).
  destruct (guiRayTracing_AnyHit_runs c6 (SimGUI.w_EnableAnyHit w) s6)
    as (s7 & t7 & R7 & C7 & K7 & T7).
  rewrite (bind_runs _ _ _ _ _ _ R7). cbv beta.
  pose proof (branch_keeps_trans _ _ _ K6 K7) as K67.
  destruct K6 as [_ [_ [K6r _]]].
  destruct K67 as [Ksky7 [Ksup7 [_ Kdbg7]]].
  assert (Hdbg : exists s8,
    runs (SimGUI.Group_by_ref
            (c6 || any (if RndMethod_eqb (m_rndMethod s6) eRtxPipeline
                        then [is_Some (SimGUI.w_EnableAnyHit w)] else []))
            (SimGUI.g_Debugging w) SimGUI.guiRayTracing_Debugging) s7
      (c6 || any (if RndMethod_eqb (m_rndMethod s6) eRtxPipeline
                  then [is_Some (SimGUI.w_EnableAnyHit w)] else [])
       || any (group_controls
                 (DebuggingGroup_controls (debugging_mode (m_rtxState s)))
                 (SimGUI.g_Debugging w))) s8 []
    /\ sky_keeps s7 s8
    /\ m_supportRayQuery s8 = m_supportRayQuery s7
    /\ m_tonemapper s8 = m_tonemapper s7).
  { destruct (SimGUI.g_Debugging w) as [d|]; cbn [SimGUI.Group_by_ref group_controls].
    - rewrite <- Kdbg7. apply guiRayTracing_Debugging_runs.
    - exists s7. split.
      + unfold runs, ret. cbn [any existsb]. rewrite orb_false_r. reflexivity.
      + split; [apply sky_keeps_refl | split; reflexivity]. }
  destruct Hdbg as (s8 & R8 & K8 & S8 & T8).
  rewrite (bind_runs _ _ _ _ _ _ R8). cbv beta.
  destruct (guiRayTracing_RenderingPipeline_runs
              (c6 || any (if RndMethod_eqb (m_rndMethod s6) eRtxPipeline
                          then [is_Some (SimGUI.w_EnableAnyHit w)] else [])
               || any (group_controls
                         (DebuggingGroup_controls (debugging_mode (m_rtxState s)))
                         (SimGUI.g_Debugging w)))
              (SimGUI.w_RenderingPipeline w) s8)
    as (s9 & t9 & R9 & C9 & K9 & T9).
  rewrite R9, !after_mkRun. cbn [app].
  exists s9, (t7 ++ t9). split; [|split; [|split]].
  - f_equal. f_equal. rewrite K6r, S8, Ksup7.
    unfold RayTracingPanel_controls, c6.
    rewrite !any_app. cbn [any existsb]. unfold any, group_controls.
    rewrite !orb_false_r, !orb_false_l, !orb_assoc. reflexivity.
  - rewrite count_app, C7, C9. reflexivity.
  - exact (sky_keeps_trans _ _ _ Ksky7 (sky_keeps_trans _ _ _ K8 K9)).
  - congruence.
Qed.

Lemma RayTracingPanel_controls_ext (w : SimGUI.RayTracingPanel)
    (s s1 : Simulator) :
  branch_keeps s s1 ->
  RayTracingPanel_controls s1 w = RayTracingPanel_controls s w.
Proof.
  intros [_ [K1 [K2 K3]]]. unfold RayTracingPanel_controls.
  rewrite K1, K2, K3. reflexivity.
Qed.

(** *** The tonemapper panel *)

(** The local [changed] of [guiTonemapper] does collect the flags of its
    controls. *)
Lemma guiTonemapper_body_runs (w : SimGUI.TonemapperPanel) (s : Simulator) :
  exists tm,
    runs (SimGUI.guiTonemapper_body w) s (any (TonemapperPanel_controls s w))
      (set_m_tonemapper tm s) [].
Proof.
  unfold runs, SimGUI.guiTonemapper_body, TonemapperPanel_controls.
  rewrite bind_get. cbv beta zeta.
  destruct (match SimGUI.w_AutoExposure w with
            | Some v => v
            | None => _
            end).
  - destruct (SimGUI.g_AutoSettings w) as [g|]; rewrite bind_modify;
      eexists; unfold ret; f_equal; f_equal; bool_norm.
  - rewrite bind_modify. eexists. unfold ret. f_equal. f_equal. bool_norm.
Qed.

(** ... and the function drops it: it returns [false] whatever was edited. *)
Lemma guiTonemapper_runs (w : SimGUI.TonemapperPanel) (s : Simulator) :
  exists tm, runs (SimGUI.guiTonemapper w) s false (set_m_tonemapper tm s) [].
Proof.
  destruct (guiTonemapper_body_runs w s) as [tm Hbody]. exists tm.
  unfold runs, SimGUI.guiTonemapper.
  rewrite (bind_runs _ _ _ _ _ _ Hbody). reflexivity.
Qed.

(** *** The environment panel *)

Lemma EnvironmentPanel_controls_ext (w : SimGUI.EnvironmentPanel)
    (s s1 : Simulator) :
  m_sunAndSky s1 = m_sunAndSky s ->
  EnvironmentPanel_controls s1 w = EnvironmentPanel_controls s w.
Proof. intros K. unfold EnvironmentPanel_controls. rewrite K. reflexivity. Qed.

Lemma guiEnvironment_runs (w : SimGUI.EnvironmentPanel) (s : Simulator) :
  exists s',
    runs (SimGUI.guiEnvironment w) s (any (EnvironmentPanel_controls s w)) s' []
    /\ panel_keeps s s'.
Proof.
  unfold EnvironmentPanel_controls.
  destruct w as [use exposure sun ground other].
  cbn [SimGUI.w_UseSunSky SimGUI.w_EnvExposure SimGUI.g_Sun SimGUI.g_Ground
       SimGUI.g_Other].
  set (in_use' := match use with Some v => _ | None => _ end).
  assert (Hin : forall st,
            in_use (m_sunAndSky
              (set_m_sunAndSky st
                 (edited exposure
                    (fun v => SimGUI.on_rtxState (set_hdrMultiplier v))
                    (edited use SimGUI.write_in_use s)))) = in_use st)
    by reflexivity.
  assert (Hin' : in_use (m_sunAndSky
                   (edited exposure
                      (fun v => SimGUI.on_rtxState (set_hdrMultiplier v))
                      (edited use SimGUI.write_in_use s))) = in_use')
    by (destruct use, exposure; reflexivity).
  destruct (negb (in_use' =? 0)) eqn:Euse.
  - destruct sun, ground, other; eexists; (split;
      [eapply runs_value;
       [unfold runs, SimGUI.guiEnvironment, SimGUI.adjust_y_is_up;
        cbn [SimGUI.w_UseSunSky SimGUI.w_EnvExposure SimGUI.g_Sun
             SimGUI.g_Ground SimGUI.g_Other];
        sim; cbv zeta; cbn [in_use m_sunAndSky set_m_sunAndSky set_y_is_up];
        rewrite Hin', Euse; sim; cbv zeta; sim; reflexivity
       |unfold group_controls, SunGroup_controls, GroundGroup_controls,
          OtherGroup_controls; bool_norm]
      |]);
      destruct use, exposure; try (split; reflexivity);
      match goal with
      | |- context [SimGUI.w_YIsUp ?o] => destruct (SimGUI.w_YIsUp o)
      end; split; reflexivity.
  - eexists. split.
    + eapply runs_value.
      * unfold runs, SimGUI.guiEnvironment, SimGUI.adjust_y_is_up.
        cbn [SimGUI.w_UseSunSky SimGUI.w_EnvExposure SimGUI.g_Sun
             SimGUI.g_Ground SimGUI.g_Other].
        sim. cbv zeta. cbn [in_use m_sunAndSky set_m_sunAndSky set_y_is_up].
        rewrite Hin', Euse. reflexivity.
      * bool_norm.
    + destruct use, exposure; split; reflexivity.
Qed.

(** *** The whole pass *)

Lemma render_panels_runs (p : SimGUI.Pass) (s : Simulator) :
  exists s' t,
    runs (SimGUI.render_panels p) s (any (restarting_controls s p)) s' t
    /\ count Event_is_reset t = 0%nat
    /\ panel_keeps s s'.
Proof.
  assert (Hcam : exists s1,
    runs (SimGUI.Group (SimGUI.h_Camera p) SimGUI.guiCamera) s
      (any (group_controls CameraPanel_controls (SimGUI.h_Camera p))) s1 []
    /\ branch_keeps s s1 /\ m_tonemapper s1 = m_tonemapper s).
  { destruct (SimGUI.h_Camera p) as [w|]; cbn [SimGUI.Group group_controls].
    - eexists. split; [apply guiCamera_runs|].
      destruct (SimGUI.w_CameraWidget w); repeat split.
    - exists s. repeat split. }
  destruct Hcam as (s1 & R1 & K1 & T1).
  assert (Hrt : exists s2 t2,
    runs (SimGUI.Group (SimGUI.h_RayTracing p) SimGUI.guiRayTracing) s1
      (any (group_controls (RayTracingPanel_controls s) (SimGUI.h_RayTracing p)))
      s2 t2
    /\ count Event_is_reset t2 = 0%nat
    /\ sky_keeps s1 s2).
  { destruct (SimGUI.h_RayTracing p) as [w|]; cbn [SimGUI.Group group_controls].
    - rewrite <- (RayTracingPanel_controls_ext w s s1 K1).
      destruct (guiRayTracing_runs w s1) as (s2 & t2 & R & C & K & _).
      exists s2, t2. repeat split; try assumption; apply K.
    - exists s1, []. repeat split. }
  destruct Hrt as (s2 & t2 & R2 & C2 & K2).
  assert (Htm : exists s3,
    runs (SimGUI.Group (SimGUI.h_Tonemapper p) SimGUI.guiTonemapper) s2
      false s3 []
    /\ sky_keeps s2 s3).
  { destruct (SimGUI.h_Tonemapper p) as [w|]; cbn [SimGUI.Group].
    - destruct (guiTonemapper_runs w s2) as [tm R]. eexists.
      split; [exact R | repeat split].
    - exists s2. repeat split. }
  destruct Htm as (s3 & R3 & K3).
  destruct K1 as [K1 _].
  pose proof (sky_keeps_trans _ _ _ K1 (sky_keeps_trans _ _ _ K2 K3)) as K13.
  assert (Henv : exists s4,
    runs (SimGUI.Group (SimGUI.h_Environment p) SimGUI.guiEnvironment) s3
      (any (group_controls (EnvironmentPanel_controls s)
              (SimGUI.h_Environment p))) s4 []
    /\ panel_keeps s3 s4).
  { destruct (SimGUI.h_Environment p) as [w|]; cbn [SimGUI.Group group_controls].
    - rewrite <- (EnvironmentPanel_controls_ext w s s3 (proj2 K13)).
      apply guiEnvironment_runs.
    - exists s3. repeat split. }
  destruct Henv as (s4 & R4 & K4).
  exists s4, t2. split; [|split].
  - eapply runs_value.
    + unfold runs, SimGUI.render_panels. cbv zeta.
      rewrite (bind_runs _ _ _ _ _ _ R1). cbv beta.
      rewrite (bind_runs _ _ _ _ _ _ R2). cbv beta.
      rewrite (bind_runs _ _ _ _ _ _ R3). cbv beta.
      rewrite (bind_runs _ _ _ _ _ _ R4). cbv beta.
      unfold SimGUI.guiStatistics, SimGUI.guiProfiler, SimGUI.guiGpuMeasures.
      destruct (SimGUI.h_Stats p); sim; unfold ret;
        rewrite ?after_after, ?after_mkRun, ?app_nil_r; cbn [app];
        reflexivity.
    + unfold restarting_controls. rewrite !any_app.
      rewrite ?orb_false_r, ?orb_false_l, ?orb_assoc. reflexivity.
  - exact C2.
  - exact (panel_keeps_trans _ _ _ (proj1 K13) K4).
Qed.

Lemma setRenderRegion_runs (size : VkRect2D) (s : Simulator) :
  runs (setRenderRegion size) s tt
    (set_m_renderRegion size
       (if VkRect2D_differs (m_renderRegion s) size
        then with_frame (-1) s else s))
    (reset_if (VkRect2D_differs (m_renderRegion s) size)).
Proof.
  unfold runs, setRenderRegion. rewrite bind_get. cbv beta.
  destruct (VkRect2D_differs (m_renderRegion s) size); reflexivity.
Qed.

(** C6, as the code has it: the flags that the open Camera, Ray Tracing,
    Tonemapper and Environment panels return are combined by one
    disjunction, tested once after the panels; the tonemapper panel always
    returns [false].  So the panels themselves never call [resetFrame],
    and the test calls it once exactly when a control of the camera, ray
    tracing or environment panel changed; a change of the viewport calls
    it once more, from [setRenderRegion]. *)
Theorem gui_reset_reduction (p : SimGUI.Pass) (s : Simulator) :
  value (SimGUI.render p s) = Some tt
  /\ value (SimGUI.render_panels p s) = Some (any (restarting_controls s p))
  /\ count Event_is_reset (trace (SimGUI.render_panels p s)) = 0%nat
  /\ trace (SimGUI.render p s) =
     trace (SimGUI.render_panels p s)
       ++ reset_if (any (restarting_controls s p))
       ++ reset_if (VkRect2D_differs (m_renderRegion s) (SimGUI.viewport p))
  /\ frame_of (exec (SimGUI.render p) s) =
     (if any (restarting_controls s p)
         || VkRect2D_differs (m_renderRegion s) (SimGUI.viewport p)
      then -1 else frame_of s)
  /\ (forall (w : SimGUI.TonemapperPanel) (s0 : Simulator),
        value (SimGUI.guiTonemapper w s0) = Some false
        /\ value (SimGUI.guiTonemapper_body w s0) =
           Some (any (TonemapperPanel_controls s0 w))).
Proof.
  destruct (render_panels_runs p s) as (s' & t & R & C & [Kr Kf]).
  assert (Hrender :
    SimGUI.render p s =
    mkRun (Some tt)
      (set_m_renderRegion (SimGUI.viewport p)
         (if VkRect2D_differs (m_renderRegion s) (SimGUI.viewport p)
          then with_frame (-1)
                 (if any (restarting_controls s p)
                  then with_frame (-1) s' else s')
          else if any (restarting_controls s p)
               then with_frame (-1) s' else s'))
      (t ++ reset_if (any (restarting_controls s p))
         ++ reset_if (VkRect2D_differs (m_renderRegion s) (SimGUI.viewport p)))).
  { unfold SimGUI.render. rewrite (bind_runs _ _ _ _ _ _ R). cbv beta.
    destruct (any (restarting_controls s p)).
    - rewrite (bind_runs _ _ _ _ _ _ (resetFrame_runs s')). cbv beta.
      rewrite (setRenderRegion_runs (SimGUI.viewport p) (with_frame (-1) s')).
      cbn [m_renderRegion with_frame set_m_rtxState]. rewrite Kr.
      reflexivity.
    - rewrite bind_ret.
      rewrite (setRenderRegion_runs (SimGUI.viewport p) s'). rewrite Kr.
      rewrite after_mkRun. reflexivity. }
  unfold exec. rewrite Hrender, R. cbn [value trace final].
  split; [reflexivity|]. split; [reflexivity|]. split; [exact C|].
  split; [reflexivity|]. split.
  - destruct (any (restarting_controls s p)),
      (VkRect2D_differs (m_renderRegion s) (SimGUI.viewport p));
      cbn [orb]; try reflexivity. exact Kf.
  - intros w s0.
    destruct (guiTonemapper_runs w s0) as [tm Htm].
    destruct (guiTonemapper_body_runs w s0) as [tm' Hbody].
    rewrite Htm, Hbody. split; reflexivity.
Qed.

(** C6 as stated fails: the user changes a tonemapper control, the
    viewport stays, and the pass ends without any call of [resetFrame]. *)
Lemma gui_reset_counterexample :
  any (render_affecting_controls viewing brightness_pass) = true
  /\ value (SimGUI.render brightness_pass viewing) = Some tt
  /\ count Event_is_reset (trace (SimGUI.render brightness_pass viewing)) = 0%nat
  /\ frame_of (exec (SimGUI.render brightness_pass) viewing) = 5.
Proof. repeat split. Qed.

(** A control of the camera panel and the viewport change in one pass:
    the reduction resets once and [setRenderRegion] resets again. *)
Example render_aperture_resize :
  trace (SimGUI.render aperture_resize_pass viewing) =
  [call_resetFrame; call_resetFrame].
Proof. reflexivity. Qed.

(** ** Other reset paths *)

(** On well-formed matrices the test of [updateFrame] is quiet exactly
    when the view matrix is the remembered one, byte for byte, and the
    field of view compares equal to the remembered one. *)
Lemma camera_changed_false_iff (s : Simulator) :
  mat4f_wf (refCamMatrix s) -> mat4f_wf (getMatrix (CameraManip s)) ->
  (camera_changed s = false <->
   refCamMatrix s = getMatrix (CameraManip s)
   /\ SFeqb (getFov (CameraManip s)) (fov s) = true).
Proof.
  intros [Hl1 _] [Hl2 _]. unfold camera_changed, Float32.neq.
  rewrite orb_false_iff, !negb_false_iff, Z.eqb_eq.
  rewrite (memcmp_zero_iff _ _ (eq_trans Hl1 (eq_sym Hl2))). reflexivity.
Qed.

(** A pass in which nothing is touched leaves the viewer as it is. *)
Example render_idle :
  SimGUI.render (idle_pass (m_renderRegion viewing)) viewing =
  mkRun (Some tt) viewing [].
Proof. reflexivity. Qed.

(** A viewport that grows from 800 x 600 to 801 x 600 resets the
    counter. *)
Example setRenderRegion_resets :
  setRenderRegion (mkVkRect2D 0 20 801 600) viewing =
  mkRun (Some tt)
    (set_m_renderRegion (mkVkRect2D 0 20 801 600) (with_frame (-1) viewing))
    [call_resetFrame].
Proof. reflexivity. Qed.

Example onResize_resets :
  frame_of (exec onResize viewing) = -1
  /\ trace (onResize viewing) = [RenderOutput_update; call_resetFrame].
Proof. split; reflexivity. Qed.

(** * Further properties *)

(** ** The frame counter under camera input *)

Lemma SFeqb_refl (f : float) : is_nan f = false -> SFeqb f f = true.
Proof.
  unfold SFeqb, SFcompare. destruct f as [sg|sg| |sg m e]; cbn; intros H;
    try reflexivity; try discriminate H.
  - destruct sg; reflexivity.
  - destruct sg; rewrite Z.compare_refl;
      change (Pos.compare_cont Eq m m) with (Pos.compare m m);
      rewrite Pos.compare_refl; reflexivity.
Qed.

Lemma step_runs (cam : Camera) (s : Simulator) :
  step cam s =
  if camera_changed (set_CameraManip cam s)
  then (if -1 <? m_maxFrames s
        then with_frame 0 (camera_remembered (set_CameraManip cam s))
        else camera_remembered (set_CameraManip cam s))
  else (if frame_of s <? m_maxFrames s
        then with_frame (Int32.wrap (frame_of s + 1)) (set_CameraManip cam s)
        else set_CameraManip cam s).
Proof.
  unfold step, exec.
  destruct (camera_changed (set_CameraManip cam s)) eqn:E.
  - rewrite (updateFrame_reset _ E). reflexivity.
  - rewrite (updateFrame_quiet _ E). reflexivity.
Qed.

Lemma step_remembers_camera (cam : Camera) (s : Simulator) :
  is_nan (getFov cam) = false ->
  camera_changed (set_CameraManip cam (step cam s)) = false.
Proof.
  intros Hnan. rewrite step_runs.
  destruct (camera_changed (set_CameraManip cam s)) eqn:E.
  - assert (H : camera_changed
                  (set_CameraManip cam (camera_remembered (set_CameraManip cam s)))
                = false).
    { unfold camera_changed, Float32.neq. cbn.
      rewrite memcmp_refl, (SFeqb_refl _ Hnan). reflexivity. }
    destruct (-1 <? m_maxFrames s); exact H.
  - destruct (frame_of s <? m_maxFrames s); exact E.
Qed.

(** X1: [updateFrame] remembers the camera it saw.  Whatever happened in
    a step, a next step with the same camera sees no reset-triggering
    event, provided the field of view is a number. *)
Theorem camera_is_remembered (cam : Camera) (s : Simulator) :
  is_nan (getFov cam) = false ->
  camera_changed (set_CameraManip cam (step cam s)) = false.
Proof. exact (step_remembers_camera cam s). Qed.

Lemma camera_is_remembered_witness :
  camera_changed (set_CameraManip moved (step moved viewing)) = false.
Proof. apply (camera_is_remembered moved viewing). reflexivity. Defined.

Lemma no_reset_event_repeat (cam : Camera) (k : nat) (s : Simulator) :
  is_nan (getFov cam) = false ->
  camera_changed (set_CameraManip cam s) = false ->
  no_reset_event (repeat cam k) s.
Proof.
  intros Hnan. revert s. induction k as [|k IH]; intros s H; cbn; [exact I|].
  split; [exact H|]. apply IH. apply step_remembers_camera. exact Hnan.
Qed.

(** X2: a camera that moves once and then rests costs one reset: after
    the step that sees the move and [k] further steps with the same
    camera the counter is [min k m_maxFrames]. *)
Theorem move_then_rest (cam : Camera) (k : nat) (s : Simulator) :
  is_nan (getFov cam) = false ->
  camera_changed (set_CameraManip cam s) = true ->
  0 <= m_maxFrames s <= Int32.max_signed ->
  frame_of (steps (cam :: repeat cam k) s) = Z.min (Z.of_nat k) (m_maxFrames s).
Proof.
  intros Hnan Hmove Hmax. cbn [steps].
  pose proof (step_remembers_camera cam s Hnan) as Hquiet.
  pose proof (no_reset_event_repeat cam k _ Hnan Hquiet) as Hrest.
  assert (Hf : frame_of (step cam s) = 0
               /\ m_maxFrames (step cam s) = m_maxFrames s).
  { rewrite step_runs, Hmove.
    destruct (Z.ltb_spec (-1) (m_maxFrames s)); [split; reflexivity | lia]. }
  destruct Hf as [Hf Hm].
  assert (R1 : Int32.in_range (frame_of (step cam s)))
    by (rewrite Hf; unfold Int32.in_range, Int32.min_signed, Int32.max_signed; lia).
  assert (R2 : Int32.in_range (m_maxFrames (step cam s)))
    by (rewrite Hm; unfold Int32.in_range, Int32.min_signed, Int32.max_signed in *;
        lia).
  destruct (steps_quiet _ _ R1 R2 Hrest) as [H _].
  rewrite H, Hf, Hm, repeat_length.
  destruct (Z.ltb_spec 0 (m_maxFrames s)); lia.
Qed.

Lemma move_then_rest_witness :
  frame_of (steps (moved :: repeat moved 3) viewing) = 3.
Proof.
  apply (move_then_rest moved 3 viewing).
  - reflexivity.
  - reflexivity.
  - vm_compute. split; discriminate.
Defined.

(** X3: a field of view that is not a number compares unequal to itself,
    so every step resets: the counter is 0 after each step and the
    accumulation never advances. *)
Theorem nan_fov_never_accumulates (cams : list Camera) (s : Simulator) :
  Forall (fun cam => is_nan (getFov cam) = true) cams ->
  cams <> [] ->
  -1 < m_maxFrames s ->
  frame_of (steps cams s) = 0.
Proof.
  intros Hall Hne Hmax.
  assert (Hstep : forall cam s0,
            is_nan (getFov cam) = true -> -1 < m_maxFrames s0 ->
            frame_of (step cam s0) = 0
            /\ m_maxFrames (step cam s0) = m_maxFrames s0).
  { intros cam s0 Hn Hm. rewrite step_runs.
    assert (E : camera_changed (set_CameraManip cam s0) = true).
    { unfold camera_changed, Float32.neq. cbn.
      destruct (getFov cam); try discriminate Hn. cbn.
      apply orb_true_r. }
    rewrite E. destruct (Z.ltb_spec (-1) (m_maxFrames s0)); [|lia].
    split; reflexivity. }
  revert s Hmax. induction Hall as [|cam cams Hcam Hall IH]; intros s Hmax;
    [congruence|].
  cbn [steps]. destruct (Hstep cam s Hcam Hmax) as [Hf Hm].
  destruct cams as [|cam' cams'].
  - exact Hf.
  - apply IH; [discriminate | rewrite Hm; exact Hmax].
Qed.

Lemma nan_fov_never_accumulates_witness :
  frame_of (steps (repeat (mkCamera zero_matrix S754_nan Float32.one) 4) viewing)
  = 0.
Proof.
  apply nan_fov_never_accumulates.
  - repeat constructor.
  - discriminate.
  - reflexivity.
Defined.

(** X4: with a cap of at least -1, no camera input takes the counter out
    of the interval from -1 to [m_maxFrames]. *)
Theorem steps_keep_bounds (cams : list Camera) (s : Simulator) :
  Int32.in_range (m_maxFrames s) ->
  frame_in_bounds s ->
  frame_in_bounds (steps cams s) /\ m_maxFrames (steps cams s) = m_maxFrames s.
Proof.
  revert s. induction cams as [|cam cams IH]; intros s Hm Hb; cbn [steps];
    [split; [exact Hb | reflexivity]|].
  assert (Hstep : frame_in_bounds (step cam s)
                  /\ m_maxFrames (step cam s) = m_maxFrames s).
  { unfold frame_in_bounds in *. rewrite step_runs.
    destruct (camera_changed (set_CameraManip cam s)).
    - destruct (Z.ltb_spec (-1) (m_maxFrames s));
        unfold frame_of; cbn; lia.
    - destruct (Z.ltb_spec (frame_of s) (m_maxFrames s)) as [Hlt|Hge].
      + assert (Hw : Int32.wrap (frame_of s + 1) = frame_of s + 1).
        { apply (Int32_wrap_succ_below (frame_of s) (m_maxFrames s));
            [|exact Hm | exact Hlt].
          unfold Int32.in_range, Int32.min_signed, Int32.max_signed in *. lia. }
        unfold frame_of in *; cbn. rewrite Hw. lia.
      + unfold frame_of in *; cbn. lia. }
  destruct Hstep as [Hb' Hm'].
  destruct (IH (step cam s)) as [H1 H2]; [rewrite Hm'; exact Hm | exact Hb' |].
  split; [exact H1 | congruence].
Qed.

Lemma steps_keep_bounds_witness :
  frame_in_bounds (steps [moved; still; still; moved] viewing).
Proof.
  apply (fun H1 H2 =>
           proj1 (steps_keep_bounds [moved; still; still; moved] viewing H1 H2)).
  - vm_compute. split; discriminate.
  - vm_compute. split; discriminate.
Defined.

(** ** Rendering a frame *)

(** X5: outside a load and below the cap, with a renderer active,
    [renderScene] runs that renderer exactly once, at the render size,
    after pushing the current block with only [size] updated; the frame
    index it pushes is below [m_maxFrames], and nothing but [size] changes
    in the object. *)
Theorem renderScene_one_run (s : Simulator) :
  m_busy s = false ->
  frame_of s < m_maxFrames s ->
  m_rndMethod s <> eNone ->
  (m_descaling s = true -> UInt32.of_int (m_descalingLevel s) <> 0) ->
  value (renderScene s) = Some tt
  /\ count Event_is_run (trace (renderScene s)) = 1%nat
  /\ In (Renderer_run (m_rndMethod s) (render_size s)) (trace (renderScene s))
  /\ pushed_frames (trace (renderScene s)) = [frame_of s]
  /\ exec renderScene s =
     set_m_rtxState
       (set_size (UInt32.to_int (fst (render_size s)),
                  UInt32.to_int (snd (render_size s))) (m_rtxState s)) s.
Proof.
  intros Hbusy Hcap Hact Hdiv. unfold exec.
  rewrite (renderScene_renders s Hbusy Hcap Hact Hdiv). cbn [value trace final].
  unfold mipmap_actions.
  destruct (negb (autoExposure (m_tonemapper s) =? 0));
    repeat split; cbn; auto.
Qed.

Lemma renderScene_one_run_witness :
  count Event_is_run (trace (renderScene viewing)) = 1%nat
  /\ pushed_frames (trace (renderScene viewing)) = [5].
Proof.
  assert (H := renderScene_one_run viewing eq_refl).
  destruct H as (_ & H1 & _ & H2 & _).
  - reflexivity.
  - cbn. discriminate.
  - cbn. discriminate.
  - split; [exact H1 | exact H2].
Defined.

(** X6: once the counter has reached the cap, [renderScene] records its
    profiler section and returns: no renderer is touched and the object
    is unchanged, whatever the renderer slot or the de-scaling level. *)
Theorem renderScene_done (s : Simulator) :
  m_busy s = false ->
  m_maxFrames s <= frame_of s ->
  renderScene s = mkRun (Some tt) s [Profiler_timeRecurring "Render"].
Proof.
  intros Hbusy Hcap. unfold renderScene. rewrite bind_get. cbv beta.
  rewrite Hbusy, bind_emit.
  destruct (Z.leb_spec (m_maxFrames s) (frame (m_rtxState s)));
    [reflexivity | unfold frame_of in Hcap; lia].
Qed.

Lemma renderScene_done_witness :
  renderScene (with_frame 10 viewing) =
  mkRun (Some tt) (with_frame 10 viewing) [Profiler_timeRecurring "Render"].
Proof.
  apply (renderScene_done (with_frame 10 viewing)).
  - reflexivity.
  - vm_compute. discriminate.
Defined.

(** X7: before any renderer was created ([m_rndMethod] is [eNone]), a
    frame that is due indexes [m_pRender] past its end: the call has no
    defined result.  Only [m_busy] or a reached cap keep it from there. *)
Theorem renderScene_without_renderer (s : Simulator) :
  m_busy s = false ->
  frame_of s < m_maxFrames s ->
  m_rndMethod s = eNone ->
  value (renderScene s) = None
  /\ count Event_is_run (trace (renderScene s)) = 0%nat.
Proof.
  intros Hbusy Hcap Hnone. unfold renderScene.
  rewrite bind_get. cbv beta. rewrite Hbusy, bind_emit.
  destruct (Z.leb_spec (m_maxFrames s) (frame (m_rtxState s)));
    [unfold frame_of in Hcap; lia|].
  unfold render_size_of.
  destruct (m_descaling s);
    [destruct (UInt32.of_int (m_descalingLevel s) =? 0)|];
    sim; cbn [m_rndMethod set_m_rtxState]; rewrite ?Hnone; cbn; split; reflexivity.
Qed.

Lemma renderScene_without_renderer_witness :
  value (renderScene startup) = None.
Proof.
  apply (renderScene_without_renderer startup).
  - reflexivity.
  - reflexivity.
  - reflexivity.
Defined.

(** X8: de-scaling divides both extents by the level, rounding down; a
    dimension becomes zero exactly when the extent is smaller than the
    level.  Without de-scaling the size is the extent. *)
Theorem descaled_size (s : Simulator) :
  1 <= m_descalingLevel s <= Int32.max_signed ->
  0 <= extent_width (m_renderRegion s) ->
  0 <= extent_height (m_renderRegion s) ->
  (m_descaling s = true ->
   render_size_of s =
     ret (extent_width (m_renderRegion s) / m_descalingLevel s,
          extent_height (m_renderRegion s) / m_descalingLevel s)
   /\ (extent_width (m_renderRegion s) / m_descalingLevel s = 0
       <-> extent_width (m_renderRegion s) < m_descalingLevel s)
   /\ (extent_height (m_renderRegion s) / m_descalingLevel s = 0
       <-> extent_height (m_renderRegion s) < m_descalingLevel s))
  /\ (m_descaling s = false ->
      render_size_of s =
        ret (extent_width (m_renderRegion s),
             extent_height (m_renderRegion s))).
Proof.
  intros Hlevel Hw Hh.
  assert (Hd : UInt32.of_int (m_descalingLevel s) = m_descalingLevel s).
  { unfold UInt32.of_int, UInt32.modulus, Int32.max_signed in *.
    apply Z.mod_small. lia. }
  split; intros Hdesc.
  - split; [|split].
    + unfold render_size_of. rewrite Hdesc, Hd.
      destruct (Z.eqb_spec (m_descalingLevel s) 0); [lia | reflexivity].
    + rewrite Z.div_small_iff by lia. lia.
    + rewrite Z.div_small_iff by lia. lia.
  - unfold render_size_of. rewrite Hdesc. reflexivity.
Qed.

Lemma descaled_size_witness :
  render_size_of
    (set_m_descaling true
       (set_m_descalingLevel 4
          (set_m_renderRegion (mkVkRect2D 0 20 1024 768) viewing)))
  = ret (1024 / 4, 768 / 4).
Proof.
  refine (proj1 (proj1 (descaled_size
            (set_m_descaling true
               (set_m_descalingLevel 4
                  (set_m_renderRegion (mkVkRect2D 0 20 1024 768) viewing)))
            _ _ _) eq_refl)).
  - vm_compute. split; discriminate.
  - vm_compute. discriminate.
  - vm_compute. discriminate.
Defined.

(** X9: the division is unsigned.  A level of 0 has no defined result,
    and a negative level, converted to unsigned, exceeds every extent
    below 2^31: the renderer is then run on an empty area. *)
Theorem descaling_level_out_of_range (s : Simulator) :
  m_descaling s = true ->
  (m_descalingLevel s = 0 -> value (render_size_of s s) = None)
  /\ (Int32.min_signed <= m_descalingLevel s < 0 ->
      0 <= extent_width (m_renderRegion s) < 2 ^ 31 ->
      0 <= extent_height (m_renderRegion s) < 2 ^ 31 ->
      render_size_of s = ret (0, 0)).
Proof.
  intros Hdesc. split.
  - intros H0. unfold render_size_of. rewrite Hdesc, H0. reflexivity.
  - intros Hneg Hw Hh.
    assert (Hd : UInt32.of_int (m_descalingLevel s) = 2 ^ 32 + m_descalingLevel s).
    { unfold UInt32.of_int, UInt32.modulus, Int32.min_signed in *.
      symmetry. apply Z.mod_unique_pos with (q := -1); lia. }
    unfold render_size_of. rewrite Hdesc, Hd.
    unfold Int32.min_signed in Hneg.
    destruct (Z.eqb_spec (2 ^ 32 + m_descalingLevel s) 0); [lia|].
    rewrite !Z.div_small by lia. reflexivity.
Qed.

Lemma descaling_level_out_of_range_witness :
  render_size_of (set_m_descaling true (set_m_descalingLevel (-1) viewing))
  = ret (0, 0).
Proof.
  refine (proj2 (descaling_level_out_of_range
            (set_m_descaling true (set_m_descalingLevel (-1) viewing)) eq_refl)
            _ _ _).
  - vm_compute. split; [discriminate | reflexivity].
  - vm_compute. split; [discriminate | reflexivity].
  - vm_compute. split; [discriminate | reflexivity].
Defined.

(** X10: the frame rendered after a reset has index 0.  From a counter at
    -1, [updateFrame] followed by [renderScene] pushes the index 0 and
    runs the renderer once, whether the camera moved in between or not. *)
Theorem first_frame_after_reset (s : Simulator) :
  frame_of s = -1 ->
  0 < m_maxFrames s ->
  m_busy s = false ->
  m_rndMethod s <> eNone ->
  (m_descaling s = true -> UInt32.of_int (m_descalingLevel s) <> 0) ->
  value ((updateFrame ;; renderScene) s) = Some tt
  /\ pushed_frames (trace ((updateFrame ;; renderScene) s)) = [0]
  /\ count Event_is_run (trace ((updateFrame ;; renderScene) s)) = 1%nat.
Proof.
  intros Hf Hmax Hbusy Hact Hdiv.
  assert (Hup : exists s1 t1,
            runs updateFrame s tt s1 t1
            /\ pushed_frames t1 = [] /\ count Event_is_run t1 = 0%nat
            /\ frame_of s1 = 0 /\ m_maxFrames s1 = m_maxFrames s
            /\ m_busy s1 = false /\ m_rndMethod s1 = m_rndMethod s
            /\ m_descaling s1 = m_descaling s
            /\ m_descalingLevel s1 = m_descalingLevel s).
  { destruct (camera_changed s) eqn:E.
    - eexists. eexists. split; [exact (updateFrame_reset s E)|].
      destruct (Z.ltb_spec (-1) (m_maxFrames s)); [|lia].
      repeat split; assumption.
    - eexists. eexists. split; [exact (updateFrame_quiet s E)|].
      rewrite Hf. destruct (Z.ltb_spec (-1) (m_maxFrames s)); [|lia].
      repeat split; assumption. }
  destruct Hup as (s1 & t1 & R1 & P1 & C1 & F1 & M1 & B1 & A1 & D1 & L1).
  assert (R2 := renderScene_renders s1 B1).
  rewrite F1, M1, A1, D1, L1 in R2. specialize (R2 Hmax Hact Hdiv).
  rewrite (bind_runs _ _ _ _ _ _ R1). cbv beta. rewrite R2.
  rewrite after_mkRun. cbn [value trace].
  assert (Hp : forall a b, pushed_frames (a ++ b) = pushed_frames a ++ pushed_frames b).
  { intros a b. induction a as [|e a IH]; [reflexivity|].
    destruct e; cbn; rewrite ?IH; reflexivity. }
  split; [reflexivity|]. split.
  - rewrite Hp, P1. unfold mipmap_actions, pushed_state.
    destruct (negb (autoExposure (m_tonemapper s1) =? 0)); cbn;
      unfold frame_of in F1; rewrite F1; reflexivity.
  - rewrite count_app, C1. unfold mipmap_actions.
    destruct (negb (autoExposure (m_tonemapper s1) =? 0)); reflexivity.
Qed.

Lemma first_frame_after_reset_witness :
  pushed_frames
    (trace ((updateFrame ;; renderScene)
              (set_CameraManip moved (with_frame (-1) viewing)))) = [0].
Proof.
  refine (proj1 (proj2 (first_frame_after_reset
            (set_CameraManip moved (with_frame (-1) viewing)) _ _ _ _ _))).
  - reflexivity.
  - reflexivity.
  - reflexivity.
  - cbn. discriminate.
  - cbn. discriminate.
Defined.

(** ** The render region *)

Lemma VkRect2D_differs_false_iff (a b : VkRect2D) :
  VkRect2D_differs a b = false <-> a = b.
Proof.
  destruct a as [ax ay aw ah], b as [bx b_y bw bh].
  unfold VkRect2D_differs. cbn.
  rewrite negb_false_iff, !andb_true_iff, !Z.eqb_eq.
  split; [intros [[[-> ->] ->] ->]; reflexivity | intros [= -> -> -> ->]; auto].
Qed.

(** X11: [setRenderRegion] compares by value.  It resets the counter
    exactly when the new rectangle differs from the stored one in some
    field, it always stores the new rectangle, and setting the same
    rectangle again does nothing at all. *)
Theorem setRenderRegion_by_value (size : VkRect2D) (s : Simulator) :
  m_renderRegion (exec (setRenderRegion size) s) = size
  /\ (m_renderRegion s <> size ->
      trace (setRenderRegion size s) = [call_resetFrame]
      /\ frame_of (exec (setRenderRegion size) s) = -1)
  /\ (m_renderRegion s = size -> setRenderRegion size s = mkRun (Some tt) s [])
  /\ setRenderRegion size (exec (setRenderRegion size) s) =
     mkRun (Some tt) (exec (setRenderRegion size) s) [].
Proof.
  unfold exec. rewrite (setRenderRegion_runs size s). cbn [final trace].
  split; [reflexivity|]. split; [|split].
  - intros Hne.
    destruct (VkRect2D_differs (m_renderRegion s) size) eqn:E.
    + split; reflexivity.
    + apply VkRect2D_differs_false_iff in E. contradiction.
  - intros <-.
    assert (E : VkRect2D_differs (m_renderRegion s) (m_renderRegion s) = false)
      by (apply VkRect2D_differs_false_iff; reflexivity).
    rewrite E. destruct s; reflexivity.
  - rewrite (setRenderRegion_runs size _).
    assert (E : VkRect2D_differs size size = false)
      by (apply VkRect2D_differs_false_iff; reflexivity).
    cbn [m_renderRegion set_m_renderRegion]. rewrite E. reflexivity.
Qed.

Lemma setRenderRegion_by_value_witness :
  trace (setRenderRegion (mkVkRect2D 0 20 801 600) viewing) = [call_resetFrame]
  /\ setRenderRegion (mkVkRect2D 0 20 800 600) viewing =
     mkRun (Some tt) viewing [].
Proof.
  split.
  - refine (proj1 (proj1 (proj2 (setRenderRegion_by_value
              (mkVkRect2D 0 20 801 600) viewing)) _)).
    cbn. discriminate.
  - refine (proj1 (proj2 (proj2 (setRenderRegion_by_value
              (mkVkRect2D 0 20 800 600) viewing))) _).
    reflexivity.
Defined.

(** ** More on load sessions *)

(** X12: the loader thread calls [resetFrame] twice for a scene file, in
    [loadScene] and again at its end, and once for any other file. *)
Theorem loader_reset_count
    (loadEnvironment : string -> HdrSampling -> HdrSampling)
    (sfile : string) (s : Simulator) :
  (is_scene_extension (path_extension sfile) = true -> m_rndMethod s <> eNone) ->
  count Event_is_reset (trace (loadAssets_thread loadEnvironment sfile s)) =
  (if is_scene_extension (path_extension sfile) then 2%nat else 1%nat).
Proof.
  intros Hact.
  destruct (is_scene_extension (path_extension sfile)) eqn:Hscene.
  - rewrite (loadAssets_thread_scene loadEnvironment sfile s Hscene (Hact eq_refl)).
    reflexivity.
  - destruct (is_hdr_extension (path_extension sfile)) eqn:Hhdr.
    + rewrite (loadAssets_thread_hdr loadEnvironment sfile s Hhdr). reflexivity.
    + rewrite (loadAssets_thread_other loadEnvironment sfile s Hscene Hhdr).
      reflexivity.
Qed.

Lemma loader_reset_count_witness :
  count Event_is_reset
    (trace (loadAssets_thread sample_loadEnvironment "scene.glb" viewing))
  = 2%nat.
Proof.
  apply (loader_reset_count sample_loadEnvironment "scene.glb" viewing).
  intros _. cbn. discriminate.
Defined.

(** X13: the text of the busy window is written by the loader thread
    only, and only for a scene or an environment.  The request itself
    does not touch it, so a session on an unsupported file shows the text
    the previous session left. *)
Theorem busy_text
    (loadEnvironment : string -> HdrSampling -> HdrSampling)
    (sfile : string) (s : Simulator) :
  (is_scene_extension (path_extension sfile) = true -> m_rndMethod s <> eNone) ->
  m_busyReasonText (exec (loadAssets sfile) s) = m_busyReasonText s
  /\ m_busyReasonText (exec (loadAssets_thread loadEnvironment sfile) s) =
     (if is_scene_extension (path_extension sfile) then "Loading scene "
      else if is_hdr_extension (path_extension sfile) then "Loading HDR "
      else m_busyReasonText s)%string.
Proof.
  intros Hact. split; [reflexivity|]. unfold exec.
  destruct (is_scene_extension (path_extension sfile)) eqn:Hscene.
  - rewrite (loadAssets_thread_scene loadEnvironment sfile s Hscene (Hact eq_refl)).
    reflexivity.
  - destruct (is_hdr_extension (path_extension sfile)) eqn:Hhdr.
    + rewrite (loadAssets_thread_hdr loadEnvironment sfile s Hhdr). reflexivity.
    + rewrite (loadAssets_thread_other loadEnvironment sfile s Hscene Hhdr).
      reflexivity.
Qed.

Lemma busy_text_witness :
  m_busyReasonText
    (exec (loadAssets_thread sample_loadEnvironment "notes.txt")
       (exec (loadAssets_thread sample_loadEnvironment "env.hdr") viewing))
  = "Loading HDR "%string.
Proof.
  refine (proj2 (busy_text sample_loadEnvironment "notes.txt"
            (exec (loadAssets_thread sample_loadEnvironment "env.hdr") viewing)
            _)).
  intros H. discriminate H.
Defined.

(** X14: of two files dropped one after the other, the second is
    rejected: the first drop raises [m_busy], so one loader thread is
    detached, for the first file. *)
Theorem second_drop_rejected (a b : string) (s : Simulator) :
  m_busy s = false ->
  (onFileDrop a ;; onFileDrop b) s =
  mkRun (Some tt)
    (set_threads (threads s ++ [a]) (set_m_busy true s))
    [write_m_busy true; vkDeviceWaitIdle; thread_detach a].
Proof.
  intros H.
  assert (R1 : runs (onFileDrop a) s tt
                 (set_threads (threads s ++ [a]) (set_m_busy true s))
                 [write_m_busy true; vkDeviceWaitIdle; thread_detach a]).
  { unfold runs. rewrite (onFileDrop_idle a s H). apply loadAssets_runs. }
  rewrite (bind_runs _ _ _ _ _ _ R1). cbv beta.
  unfold onFileDrop. rewrite bind_get. reflexivity.
Qed.

Lemma second_drop_rejected_witness :
  trace ((onFileDrop "a.glb" ;; onFileDrop "b.hdr") viewing) =
  [write_m_busy true; vkDeviceWaitIdle; thread_detach "a.glb"].
Proof.
  rewrite (second_drop_rejected "a.glb" "b.hdr" viewing eq_refl). reflexivity.
Defined.

Lemma loadAssets_thread_keeps_threads
    (loadEnvironment : string -> HdrSampling -> HdrSampling)
    (sfile : string) (s : Simulator) :
  (is_scene_extension (path_extension sfile) = true -> m_rndMethod s <> eNone) ->
  threads (exec (loadAssets_thread loadEnvironment sfile) s) = threads s.
Proof.
  intros Hact. unfold exec.
  destruct (is_scene_extension (path_extension sfile)) eqn:Hscene.
  - rewrite (loadAssets_thread_scene loadEnvironment sfile s Hscene (Hact eq_refl)).
    reflexivity.
  - destruct (is_hdr_extension (path_extension sfile)) eqn:Hhdr.
    + rewrite (loadAssets_thread_hdr loadEnvironment sfile s Hhdr). reflexivity.
    + rewrite (loadAssets_thread_other loadEnvironment sfile s Hscene Hhdr).
      reflexivity.
Qed.

(** X15: [loadAssets] itself has no such guard.  Of two requests made
    through it in a row (the menu path), both threads are detached, and
    when the first one ends it lowers [m_busy] while the second is still
    to run: the flag no longer covers the load in flight. *)
Theorem overlapping_sessions
    (loadEnvironment : string -> HdrSampling -> HdrSampling)
    (a b : string) (s : Simulator) :
  threads s = [] ->
  (is_scene_extension (path_extension a) = true -> m_rndMethod s <> eNone) ->
  value ((loadAssets a ;; loadAssets b ;; run_thread loadEnvironment) s) = Some tt
  /\ m_busy (exec (loadAssets a ;; loadAssets b ;; run_thread loadEnvironment) s)
     = false
  /\ threads (exec (loadAssets a ;; loadAssets b ;; run_thread loadEnvironment) s)
     = [b].
Proof.
  intros Hthreads Hact. unfold exec.
  rewrite (bind_runs _ _ _ _ _ _ (loadAssets_runs a s)). cbv beta.
  rewrite (bind_runs _ _ _ _ _ _ (loadAssets_runs b _)). cbv beta.
  unfold run_thread. rewrite bind_get. cbv beta.
  cbn [threads set_threads set_m_busy]. rewrite Hthreads. cbn [app].
  rewrite bind_modify.
  set (s0 := set_threads [b] _).
  assert (Hact0 : is_scene_extension (path_extension a) = true ->
                  m_rndMethod s0 <> eNone) by exact Hact.
  destruct (loadAssets_thread_completion loadEnvironment a s0 Hact0)
    as (s' & t & Hrun & _ & Hb).
  pose proof (loadAssets_thread_keeps_threads loadEnvironment a s0 Hact0) as Ht.
  unfold exec in Ht. rewrite Hrun in *. cbn [after value final] in *.
  repeat split; assumption.
Qed.

Lemma overlapping_sessions_witness :
  m_busy (exec (loadAssets "a.glb" ;; loadAssets "b.hdr" ;;
                run_thread sample_loadEnvironment) viewing) = false
  /\ threads (exec (loadAssets "a.glb" ;; loadAssets "b.hdr" ;;
                    run_thread sample_loadEnvironment) viewing) = ["b.hdr"%string].
Proof.
  refine (proj2 (overlapping_sessions sample_loadEnvironment
                   "a.glb" "b.hdr" viewing eq_refl _)).
  intros _. cbn. discriminate.
Defined.

(** X16: a menu item whose file dialog gave the empty string (closed, or
    absent on this platform) still starts a session: nothing is loaded,
    and the accumulated frames are reset. *)
Theorem empty_path_session
    (loadEnvironment : string -> HdrSampling -> HdrSampling)
    (m : SimGUI.Menu) (s : Simulator) :
  threads s = [] ->
  SimGUI.i_OpenGLTFScene m = Some EmptyString ->
  SimGUI.i_OpenHDREnvironment m = None ->
  SimGUI.i_Axis m = false ->
  (SimGUI.menuBar m ;; run_thread loadEnvironment) s =
  mkRun (Some tt)
    (set_threads [] (set_m_busy false (with_frame (-1) s)))
    [write_m_busy true; vkDeviceWaitIdle; thread_detach EmptyString;
     call_resetFrame; write_m_busy false].
Proof.
  intros Hthreads Hg Hh Ha. unfold SimGUI.menuBar. rewrite Hg, Hh, Ha.
  cbv iota. sim.
  rewrite (bind_runs _ _ _ _ _ _ (loadAssets_runs EmptyString s)). cbv beta.
  sim. unfold run_thread. rewrite bind_get. cbv beta.
  cbn [threads set_threads]. rewrite Hthreads. cbn [app].
  rewrite bind_modify.
  rewrite (loadAssets_thread_other loadEnvironment EmptyString _ eq_refl eq_refl).
  reflexivity.
Qed.

Lemma empty_path_session_witness :
  frame_of
    (exec (SimGUI.menuBar (SimGUI.mkMenu (Some EmptyString) None false) ;;
           run_thread sample_loadEnvironment) viewing) = -1.
Proof.
  unfold exec.
  rewrite (empty_path_session sample_loadEnvironment
             (SimGUI.mkMenu (Some EmptyString) None false) viewing
             eq_refl eq_refl eq_refl eq_refl).
  reflexivity.
Defined.

(** ** The exposure bits *)

(** A property of bytes that a decision procedure checks value by value. *)
Lemma byte_cases (f : Z -> bool) :
  forallb f (map Z.of_nat (seq 0 256)) = true ->
  forall b, 0 <= b < 256 -> f b = true.
Proof.
  intros H b Hb. rewrite forallb_forall in H. apply H.
  apply in_map_iff. exists (Z.to_nat b). split; [lia|].
  apply in_seq. lia.
Qed.

Lemma bitset8_range (i : Z) : 0 <= SimGUI.bitset8 i < 256.
Proof. unfold SimGUI.bitset8. apply Z.mod_pos_bound. lia. Qed.

Lemma guiTonemapper_exec (w : SimGUI.TonemapperPanel) (s : Simulator) :
  SimGUI.guiTonemapper w s =
  mkRun (Some false)
    (set_m_tonemapper
       (mkTonemapper (tonemapper_word (autoExposure (m_tonemapper s)) w)) s)
    [].
Proof.
  unfold SimGUI.guiTonemapper, SimGUI.guiTonemapper_body, tonemapper_word,
    local_box, auto_exposure_box.
  rewrite bind_assoc, bind_get. cbv beta zeta.
  destruct (match SimGUI.w_AutoExposure w with
            | Some v => v
            | None => _
            end).
  - destruct (SimGUI.g_AutoSettings w) as [g|]; sim; reflexivity.
  - sim. reflexivity.
Qed.

(** The layout of the stored word, checked on every byte. *)
Lemma exposure_bits_layout (b : Z) (auto : bool) (loc : option bool) :
  0 <= b < 256 ->
  let word :=
    SimGUI.bitset_set
      (match loc with Some v => SimGUI.bitset_set b 1 v | None => b end)
      0 auto in
  0 <= word < 256
  /\ Z.testbit word 0 = auto
  /\ Z.testbit word 1 = match loc with Some v => v | None => Z.testbit b 1 end
  /\ (forall i, 2 <= i < 8 -> Z.testbit word i = Z.testbit b i).
Proof.
  intros Hb. cbv zeta.
  pose (word := fun b =>
          SimGUI.bitset_set
            (match loc with Some v => SimGUI.bitset_set b 1 v | None => b end)
            0 auto).
  pose (check := fun b =>
          (0 <=? word b) && (word b <? 256)
          && Bool.eqb (Z.testbit (word b) 0) auto
          && Bool.eqb (Z.testbit (word b) 1)
               (match loc with Some v => v | None => Z.testbit b 1 end)
          && forallb (fun i => Bool.eqb (Z.testbit (word b) i) (Z.testbit b i))
               [2; 3; 4; 5; 6; 7]).
  assert (H : check b = true).
  { apply byte_cases; [|exact Hb].
    destruct auto; destruct loc as [[|]|]; vm_compute; reflexivity. }
  unfold check in H. fold (word b).
  rewrite !andb_true_iff in H. destruct H as [[[[H1 H2] H3] H4] H5].
  apply Z.leb_le in H1. apply Z.ltb_lt in H2.
  apply Bool.eqb_prop in H3. apply Bool.eqb_prop in H4.
  rewrite forallb_forall in H5.
  repeat split; try assumption.
  intros i Hi. apply Bool.eqb_prop. apply H5. cbn.
  assert (i = 2 \/ i = 3 \/ i = 4 \/ i = 5 \/ i = 6 \/ i = 7) by lia.
  intuition.
Qed.

Lemma guiTonemapper_word_bits (w : SimGUI.TonemapperPanel) (s : Simulator) :
  let old := autoExposure (m_tonemapper s) in
  let new := autoExposure (m_tonemapper (exec (SimGUI.guiTonemapper w) s)) in
  0 <= new < 256
  /\ Z.testbit new 0 = auto_exposure_box old w
  /\ Z.testbit new 1 =
     match local_box old w with
     | Some v => v
     | None => Z.testbit old 1
     end
  /\ (forall i, 2 <= i < 8 -> Z.testbit new i = Z.testbit old i).
Proof.
  cbv zeta. unfold exec. rewrite guiTonemapper_exec.
  cbn [final m_tonemapper set_m_tonemapper autoExposure]. unfold tonemapper_word.
  pose proof (bitset8_range (autoExposure (m_tonemapper s))) as Hb.
  destruct (exposure_bits_layout _ (auto_exposure_box (autoExposure (m_tonemapper s)) w)
              (local_box (autoExposure (m_tonemapper s)) w) Hb)
    as (H1 & H2 & H3 & H4).
  assert (Hlow : forall i, 0 <= i < 8 ->
            Z.testbit (SimGUI.bitset8 (autoExposure (m_tonemapper s))) i =
            Z.testbit (autoExposure (m_tonemapper s)) i).
  { intros i Hi. unfold SimGUI.bitset8. change 256 with (2 ^ 8).
    apply Z.mod_pow2_bits_low. lia. }
  split; [exact H1|]. split; [exact H2|]. split.
  - rewrite H3. destruct (local_box _ w); [reflexivity | apply Hlow; lia].
  - intros i Hi. rewrite (H4 i Hi). apply Hlow. lia.
Qed.

(** X17: the word [guiTonemapper] leaves in [autoExposure] is a byte.
    Its bit 0 is the state of the "Auto Exposure" checkbox, its bit 1 the
    state of "Local" when the pass showed that checkbox and the old bit 1
    otherwise, and its bits 2 to 7 are the old ones; whatever the old
    word held above its low byte is dropped. *)
Theorem exposure_word (w : SimGUI.TonemapperPanel) (s : Simulator) :
  let old := autoExposure (m_tonemapper s) in
  let new := autoExposure (m_tonemapper (exec (SimGUI.guiTonemapper w) s)) in
  0 <= new < 256
  /\ Z.testbit new 0 = auto_exposure_box old w
  /\ Z.testbit new 1 =
     match local_box old w with
     | Some v => v
     | None => Z.testbit old 1
     end
  /\ (forall i, 2 <= i < 8 -> Z.testbit new i = Z.testbit old i).
Proof. exact (guiTonemapper_word_bits w s). Qed.



(** X19: [renderScene] tests the whole word where the panel tests bit 0.
    When "Auto Exposure" is unchecked while bit 1 ("Local") is set, the
    word stays non-zero, and the next rendered frame still generates the
    mipmaps of automatic exposure. *)
Theorem unchecked_auto_exposure_keeps_mipmaps
    (w : SimGUI.TonemapperPanel) (s : Simulator) :
  SimGUI.w_AutoExposure w = Some false ->
  Z.testbit (autoExposure (m_tonemapper s)) 1 = true ->
  m_busy s = false ->
  frame_of s < m_maxFrames s ->
  m_rndMethod s <> eNone ->
  (m_descaling s = true -> UInt32.of_int (m_descalingLevel s) <> 0) ->
  Z.testbit (autoExposure (m_tonemapper (exec (SimGUI.guiTonemapper w) s))) 0
    = false
  /\ In RenderOutput_genMipmap
       (trace (renderScene (exec (SimGUI.guiTonemapper w) s))).
Proof.
  intros Hauto Hbit Hbusy Hcap Hact Hdiv.
  destruct (guiTonemapper_word_bits w s) as (_ & H0 & H1 & _). cbv zeta in H0, H1.
  assert (Hbox : auto_exposure_box (autoExposure (m_tonemapper s)) w = false)
    by (unfold auto_exposure_box; rewrite Hauto; reflexivity).
  assert (Hloc : local_box (autoExposure (m_tonemapper s)) w = None)
    by (unfold local_box; rewrite Hbox; reflexivity).
  rewrite Hbox in H0. rewrite Hloc, Hbit in H1.
  split; [exact H0|].
  assert (Hnz : autoExposure (m_tonemapper (exec (SimGUI.guiTonemapper w) s)) <> 0).
  { intros E. rewrite E in H1. rewrite Z.bits_0 in H1. discriminate H1. }
  revert Hnz. unfold exec. rewrite guiTonemapper_exec. cbn [final]. intros Hnz.
  set (s' := set_m_tonemapper _ s) in *.
  rewrite (renderScene_renders s' Hbusy Hcap Hact Hdiv). cbn [trace].
  apply in_or_app. right. unfold mipmap_actions.
  destruct (Z.eqb_spec (autoExposure (m_tonemapper s')) 0) as [E|E];
    [contradiction | cbn; auto].
Qed.

Lemma unchecked_auto_exposure_keeps_mipmaps_witness :
  In RenderOutput_genMipmap
    (trace (renderScene
              (exec (SimGUI.guiTonemapper
                       (SimGUI.mkTonemapperPanel (Some false) false false false
                          false false None))
                 (set_m_tonemapper (mkTonemapper 3) viewing)))).
Proof.
  refine (proj2 (unchecked_auto_exposure_keeps_mipmaps
            (SimGUI.mkTonemapperPanel (Some false) false false false false
               false None)
            (set_m_tonemapper (mkTonemapper 3) viewing) _ _ _ _ _ _)).
  - reflexivity.
  - reflexivity.
  - reflexivity.
  - reflexivity.
  - cbn. discriminate.
  - cbn. discriminate.
Defined.

(** ** What the settings window leaves alone *)

Lemma gui_confined_ret {A : Type} (a : A) : gui_confined (ret a).
Proof. intros s. repeat split. Qed.

Lemma gui_confined_get : gui_confined get.
Proof. intros s. repeat split. Qed.

Lemma gui_confined_emit (e : Event) :
  is_gui_action e = true -> gui_confined (emit e).
Proof. intros H s. cbn. rewrite H. repeat split. Qed.

Lemma gui_confined_modify (f : Simulator -> Simulator) :
  (forall s, m_busy (f s) = m_busy s /\ threads (f s) = threads s
             /\ m_skydome (f s) = m_skydome s) ->
  gui_confined (modify f).
Proof. intros H s. cbn. split; [reflexivity | apply H]. Qed.

Lemma gui_confined_undefined {A : Type} :
  gui_confined (@undefined_behaviour A).
Proof. intros s. repeat split. Qed.

Lemma gui_confined_bind {A B : Type} (m : M A) (k : A -> M B) :
  gui_confined m -> (forall a, gui_confined (k a)) -> gui_confined (bind m k).
Proof.
  intros Hm Hk s. unfold bind.
  destruct (Hm s) as (T1 & B1 & H1 & S1).
  destruct (value (m s)) as [a|]; cbn.
  - destruct (Hk a (final (m s))) as (T2 & B2 & H2 & S2).
    rewrite forallb_app, T1, T2. repeat split; congruence.
  - repeat split; assumption.
Qed.

Lemma gui_confined_edit {A : Type} (e : option A)
    (write : A -> Simulator -> Simulator) :
  (forall v s, m_busy (write v s) = m_busy s /\ threads (write v s) = threads s
               /\ m_skydome (write v s) = m_skydome s) ->
  gui_confined (SimGUI.edit e write).
Proof.
  intros H. destruct e as [v|]; cbn [SimGUI.edit].
  - apply gui_confined_bind; [|intro; apply gui_confined_ret].
    apply gui_confined_modify. intros s. apply H.
  - apply gui_confined_ret.
Qed.

Lemma gui_confined_resetFrame : gui_confined resetFrame.
Proof.
  unfold resetFrame. apply gui_confined_bind; [|intro].
  - apply gui_confined_emit. reflexivity.
  - apply gui_confined_modify. intros s. repeat split.
Qed.

(** The rules, applied along the structure of a computation. *)
Ltac confined :=
  repeat
    match goal with
    | |- gui_confined (bind _ _) => apply gui_confined_bind; [|intro]
    | |- gui_confined (ret _) => apply gui_confined_ret
    | |- gui_confined get => apply gui_confined_get
    | |- gui_confined undefined_behaviour => apply gui_confined_undefined
    | |- gui_confined (emit _) => apply gui_confined_emit; reflexivity
    | |- gui_confined (modify _) =>
        apply gui_confined_modify; intros; repeat split
    | |- gui_confined (SimGUI.edit _ _) =>
        apply gui_confined_edit; intros; repeat split
    | |- gui_confined resetFrame => apply gui_confined_resetFrame
    | |- gui_confined (if ?c then _ else _) => destruct c
    | |- gui_confined (match ?o with Some _ => _ | None => _ end) =>
        destruct o
    end.

Lemma gui_confined_createRender (method : RndMethod) :
  gui_confined (createRender method).
Proof.
  unfold createRender, create_active_renderer, m_pRender. confined.
Qed.

Lemma gui_confined_guiRayTracing (w : SimGUI.RayTracingPanel) :
  gui_confined (SimGUI.guiRayTracing w).
Proof.
  unfold SimGUI.guiRayTracing, SimGUI.guiRayTracing_AnyHit,
    SimGUI.guiRayTracing_RenderingPipeline, SimGUI.Group_by_ref,
    SimGUI.guiRayTracing_Debugging, m_pRender.
  cbv zeta.
  repeat
    match goal with
    | |- gui_confined (createRender _) => apply gui_confined_createRender
    | _ => progress confined
    end.
Qed.

Lemma gui_confined_guiEnvironment (w : SimGUI.EnvironmentPanel) :
  gui_confined (SimGUI.guiEnvironment w).
Proof.
  unfold SimGUI.guiEnvironment, SimGUI.adjust_y_is_up. cbv zeta. confined.
Qed.

Lemma gui_confined_guiTonemapper (w : SimGUI.TonemapperPanel) :
  gui_confined (SimGUI.guiTonemapper w).
Proof. intros s. rewrite guiTonemapper_exec. repeat split. Qed.

Lemma gui_confined_guiCamera (w : SimGUI.CameraPanel) :
  gui_confined (SimGUI.guiCamera w).
Proof. unfold SimGUI.guiCamera. cbv zeta. confined. Qed.

(** X20: a pass over the settings window never runs a renderer, never
    loads or draws anything and never starts a load session: its actions
    are device waits, renderer destruction and creation, the any-hit
    switch, the renderer mark and [resetFrame]; and it leaves [m_busy],
    the pending loader threads and the environment as they are. *)
Theorem settings_window_confined (p : SimGUI.Pass) (s : Simulator) :
  forallb is_gui_action (trace (SimGUI.render p s)) = true
  /\ count Event_is_run (trace (SimGUI.render p s)) = 0%nat
  /\ m_busy (exec (SimGUI.render p) s) = m_busy s
  /\ threads (exec (SimGUI.render p) s) = threads s
  /\ m_skydome (exec (SimGUI.render p) s) = m_skydome s.
Proof.
  assert (H : gui_confined (SimGUI.render p)).
  { unfold SimGUI.render, SimGUI.render_panels, SimGUI.Group, setRenderRegion,
      SimGUI.guiStatistics, SimGUI.guiProfiler, SimGUI.guiGpuMeasures.
    cbv zeta.
    repeat
      match goal with
      | |- gui_confined (SimGUI.guiCamera _) => apply gui_confined_guiCamera
      | |- gui_confined (SimGUI.guiRayTracing _) =>
          apply gui_confined_guiRayTracing
      | |- gui_confined (SimGUI.guiTonemapper _) =>
          apply gui_confined_guiTonemapper
      | |- gui_confined (SimGUI.guiEnvironment _) =>
          apply gui_confined_guiEnvironment
      | _ => progress confined
      end. }
  destruct (H s) as (T & B & Th & S). unfold exec.
  split; [exact T|]. split; [|repeat split; assumption].
  unfold count.
  assert (Hnone : forall t, forallb is_gui_action t = true ->
                            filter Event_is_run t = []).
  { induction t as [|e t IH]; [reflexivity|]. cbn. intros Ht.
    apply andb_true_iff in Ht. destruct Ht as [He Ht].
    destruct e; try discriminate He; cbn; apply IH; exact Ht. }
  rewrite (Hnone _ T). reflexivity.
Qed.

(** ** The up flag of the sky *)

Lemma store_bool_flag (v : bool) (z : Z) : is_flag z -> is_flag (SimGUI.store_bool v z).
Proof.
  unfold is_flag, SimGUI.store_bool.
  intros [-> | ->]; destruct v; cbn; auto.
Qed.

(** X21: [guiEnvironment] derives [y_is_up] from the camera in every
    pass, before anything reads it: at the end of the pass it is 0 or 1
    whatever it was, and it is 1 exactly when the camera's up vector has
    [y == 1], unless the (disabled) "Y is Up" checkbox reported an edit.
    The camera itself is not touched. *)
Theorem y_is_up_follows_camera (w : SimGUI.EnvironmentPanel) (s : Simulator) :
  is_flag (y_is_up (m_sunAndSky (exec (SimGUI.guiEnvironment w) s)))
  /\ CameraManip (exec (SimGUI.guiEnvironment w) s) = CameraManip s
  /\ ((forall g, SimGUI.g_Other w = Some g -> SimGUI.w_YIsUp g = None) ->
      y_is_up (m_sunAndSky (exec (SimGUI.guiEnvironment w) s)) =
        (if SFeqb (getLookat_up_y (CameraManip s)) Float32.one then 1 else 0)).
Proof.
  destruct w as [use expo sun ground other].
  unfold exec, SimGUI.guiEnvironment, SimGUI.adjust_y_is_up. cbv zeta.
  cbn [SimGUI.w_UseSunSky SimGUI.w_EnvExposure SimGUI.g_Sun SimGUI.g_Ground
       SimGUI.g_Other].
  sim.
  assert (F : is_flag (if SFeqb (getLookat_up_y (CameraManip s)) Float32.one
                       then 1 else 0))
    by (destruct (SFeqb _ _); [right | left]; reflexivity).
  match goal with
  | |- context [if ?c then _ else _] =>
      match c with negb _ => destruct c end
  end.
  2: { destruct use, expo; cbn; repeat split; auto. }
  destruct sun, ground; sim.
  all: destruct other as [[m sa r c [v|]]|]; sim.
  all: destruct use, expo; cbn -[SimGUI.store_bool SFeqb].
  all: split;
    [ first [exact F | apply store_bool_flag; exact F]
    | split;
      [ reflexivity
      | first [intros _; reflexivity | intros H; discriminate (H _ eq_refl)] ] ].
Qed.

Lemma y_is_up_follows_camera_witness :
  y_is_up (m_sunAndSky (exec (SimGUI.guiEnvironment sun_and_sky_on) viewing)) =
    (if SFeqb (getLookat_up_y (CameraManip viewing)) Float32.one then 1 else 0).
Proof.
  refine (proj2 (proj2 (y_is_up_follows_camera sun_and_sky_on viewing)) _).
  intros g H. injection H as <-. reflexivity.
Defined.
